(** * mcp-dap-server: the debug-session protocol engine

    A shallow embedding of [dap.go] (the [DAPClient] and its request
    methods) and of [tools.go] (the [debuggerSession] tool handlers), with
    the properties of the session engine stated and proved over it.

    Conventions of the embedding.
    - Go's [int] is a 64-bit two's-complement integer; it is a [Z] and the
      one arithmetic operation of the code ([c.seq++]) wraps explicitly.
    - A Go function returning [(result, error)] returns a [ToolReturn];
      a function returning [error] returns an [option string]
      ([None] is [nil], [Some e] is an error whose text is [e]).
    - A run-time panic and [log.Fatal] are the two abnormal outcomes of the
      [Go] monad; they propagate through every bind.
    - The outside world (the [dlv] child process, its standard output, its
      socket and the messages it sends) is a script held in the state; the
      observable actions of the bridge are appended to a trace. *)

From Stdlib Require Import ZArith List String Ascii Bool Lia DecimalString.
Import ListNotations.

Local Open Scope string_scope.
Local Open Scope Z_scope.

(* ===================================================================== *)
(** ** Go integers and the string functions the code calls *)
(* ===================================================================== *)

Module GoInt.

Definition intSize : Z := 64.

(** The value of an [int] expression whose mathematical value is [z]. *)
Definition wrap (z : Z) : Z :=
  (z + 2 ^ (intSize - 1)) mod 2 ^ intSize - 2 ^ (intSize - 1).

(** [x++] *)
Definition incr (x : Z) : Z := wrap (x + 1).

(** The verb [%d] of [fmt.Sprintf]. *)
Definition Itoa (x : Z) : string := NilZero.string_of_int (Z.to_int x).

End GoInt.

Module strings.

(** [strings.HasPrefix(s, prefix)] *)
Definition HasPrefix (s prefix : string) : bool := String.prefix prefix s.

(** [strings.Contains(s, substr)] *)
Fixpoint Contains (s substr : string) : bool :=
  String.prefix substr s ||
  match s with
  | EmptyString => false
  | String _ s' => Contains s' substr
  end.

End strings.

(** The line feed of the Go string literals. *)
Definition nl : string := String (ascii_of_nat 10) EmptyString.

(* ===================================================================== *)
(** ** The messages of the debug protocol (package [dap])

    Only the fields and the type tests the bridge uses are kept. *)
(* ===================================================================== *)

Module dap.

(** Arguments of the requests the client builds. *)
Inductive Arguments : Type :=
| NoArguments
| InitializeRequestArguments
    (AdapterID PathFormat : string)
    (LinesStartAt1 ColumnsStartAt1 SupportsVariableType
     SupportsVariablePaging SupportsRunInTerminalRequest : bool)
    (Locale : string)
| LaunchArguments (request mode program : string) (stopOnEntry : bool)
| AttachArguments (request mode : string) (processId : Z)
| RestartArguments (request mode : string) (stopOnEntry : bool)
    (args : list string)
| SetBreakpointsArguments (SourceName SourcePath : string) (Lines : list Z)
| SetFunctionBreakpointsArguments (Names : list string)
| ThreadArguments (ThreadId : Z)
| StackTraceArguments (ThreadId StartFrame Levels : Z)
| ScopesArguments (FrameId : Z)
| VariablesArguments (VariablesReference : Z)
| EvaluateArguments (Expression : string) (FrameId : Z) (Context : string)
| DisconnectArguments (TerminateDebuggee : bool)
| SetVariableArguments (VariablesReference : Z) (Name Value : string)
| BreakpointLocationsArguments (SourcePath : string) (Line : Z)
| CompletionsArguments (Text : string) (Column FrameId : Z)
| DisassembleArguments (MemoryReference : string)
    (InstructionOffset InstructionCount : Z)
| SetExceptionBreakpointsArguments (Filters : list string)
| DataBreakpointInfoArguments (VariablesReference : Z) (Name : string)
| SetDataBreakpointsArguments (DataIds : list string)
| SourceArguments (SourceReference : Z).

(** [dap.Request] together with the arguments of the typed request that
    embeds it. *)
Record Request : Type := {
  Seq : Z;
  Type_ : string;
  Command : string;
  Args : Arguments
}.

(** [dap.Response], the part common to every response. *)
Record Response : Type := {
  RequestSeq : Z;
  Success : bool;
  Message : string
}.

Record StoppedEventBody : Type := {
  Reason : string;
  ThreadId : Z;
  HitBreakpointIds : list Z
}.

Record Source : Type := { Path : string }.

Record Breakpoint : Type := {
  bp_Id : Z;
  bp_Verified : bool;
  bp_Message : string;
  bp_Source : option Source;          (* [*Source], may be nil *)
  bp_Line : Z
}.

Record StackFrame : Type := {
  frame_Id : Z;
  frame_Name : string;
  frame_Source : option Source;       (* [*Source], may be nil *)
  frame_Line : Z;
  frame_Column : Z;
  frame_PresentationHint : string
}.

Record Scope : Type := {
  scope_Name : string;
  scope_VariablesReference : Z;
  scope_Expensive : bool
}.

(** [dap.Variable] *)
Record Var : Type := {
  var_Name : string;
  var_Type : string;
  var_Value : string
}.

(** A decoded message ([dap.Message]).  Every message is a response, an event or a
    request of the adapter.  The response and event types no handler
    names are kept by their Go type name. *)
Inductive ProtocolMessage : Type :=
| InitializeResponse (r : Response) (capabilitiesJSON : string)
| SetBreakpointsResponse (r : Response) (Breakpoints : list Breakpoint)
| StackTraceResponse (r : Response) (StackFrames : list StackFrame)
    (TotalFrames : Z)
| ScopesResponse (r : Response) (Scopes : list Scope)
| VariablesResponse (r : Response) (Variables : list Var)
| EvaluateResponse (r : Response) (Result Type_ : string)
| ErrorResponse (r : Response)
| OtherResponse (goType : string) (r : Response)
| StoppedEvent (Body : StoppedEventBody)
| TerminatedEvent
| OtherEvent (goType : string)
| AdapterRequest (goType : string).

(** [msg.(dap.ResponseMessage)] followed by [GetResponse()]. *)
Definition asResponseMessage (msg : ProtocolMessage) : option Response :=
  match msg with
  | InitializeResponse r _ | SetBreakpointsResponse r _
  | StackTraceResponse r _ _ | ScopesResponse r _
  | VariablesResponse r _ | EvaluateResponse r _ _
  | ErrorResponse r | OtherResponse _ r => Some r
  | StoppedEvent _ | TerminatedEvent | OtherEvent _
  | AdapterRequest _ => None
  end.

(** [msg.(dap.EventMessage)] *)
Definition isEventMessage (msg : ProtocolMessage) : bool :=
  match msg with
  | StoppedEvent _ | TerminatedEvent | OtherEvent _ => true
  | _ => false
  end.

(** The verb [%T]. *)
Definition typeName (msg : ProtocolMessage) : string :=
  match msg with
  | InitializeResponse _ _ => "*dap.InitializeResponse"
  | SetBreakpointsResponse _ _ => "*dap.SetBreakpointsResponse"
  | StackTraceResponse _ _ _ => "*dap.StackTraceResponse"
  | ScopesResponse _ _ => "*dap.ScopesResponse"
  | VariablesResponse _ _ => "*dap.VariablesResponse"
  | EvaluateResponse _ _ _ => "*dap.EvaluateResponse"
  | ErrorResponse _ => "*dap.ErrorResponse"
  | OtherResponse t _ => t
  | StoppedEvent _ => "*dap.StoppedEvent"
  | TerminatedEvent => "*dap.TerminatedEvent"
  | OtherEvent t => t
  | AdapterRequest t => t
  end.

End dap.

(* ===================================================================== *)
(** ** The state: session, outside world, trace *)
(* ===================================================================== *)

(** What one call of [dap.ReadProtocolMessage] delivers. *)
Inductive ReadResult : Type :=
| Recv (msg : dap.ProtocolMessage)
| ReadError (err : string).

(** The behaviour of one [dlv dap] child process, fixed by the outside
    world. *)
Record Dlv : Type := {
  pipe_error : option string;    (* [cmd.StdoutPipe()] fails *)
  start_error : option string;   (* [cmd.Start()] fails *)
  stdout_lines : list string;    (* the complete lines it prints *)
  stdout_error : string;         (* the error that ends its output *)
  accepts : bool;                (* dialing its address succeeds *)
  writable : bool;               (* writes on the connection succeed *)
  messages : list ReadResult;    (* what it sends on the connection *)
  kill_error : option string     (* [Process.Kill()] fails *)
}.

(** A [net.Conn] to the adapter. *)
Record Conn : Type := {
  remote : string;
  conn_writable : bool;
  readable : list ReadResult
}.

(** [type DAPClient struct { conn; reader; seq }].  The [reader] is the
    list of what the successive reads will still deliver; a read past its
    end fails with [EOF]. *)
Record DAPClient : Type := {
  conn : Conn;
  reader : list ReadResult;
  seq : Z
}.

(** [*exec.Cmd]: [Process] is nil until [Start] has succeeded. *)
Record Cmd : Type := {
  cmd_Args : list string;
  program : Dlv;
  Process : bool
}.

(** [type debuggerSession struct { cmd; client }], both pointers. *)
Record debuggerSession : Type := {
  cmd : option Cmd;
  client : option DAPClient
}.

(** The actions of the bridge the outside world can observe. *)
Inductive Action : Type :=
| Spawned (args : list string)      (* [cmd.Start()] succeeded *)
| StdoutLine (s : string)           (* a line read from the child's stdout *)
| Dialed (addr : string)            (* [net.Dial] was called *)
| Sent (request : dap.Request)      (* a request was written on the wire *)
| Closed                            (* [conn.Close()] *)
| Killed                            (* [Process.Kill()] *)
| Waited.                           (* [cmd.Wait()] *)

Record State : Type := {
  ds : debuggerSession;
  installed : list Dlv;      (* the child processes still to come *)
  listener : option Dlv;     (* the process listening on the socket *)
  trace : list Action
}.

(** The requests written on the wire, oldest first. *)
Fixpoint wire (tr : list Action) : list dap.Request :=
  match tr with
  | [] => []
  | Sent request :: tr' => request :: wire tr'
  | _ :: tr' => wire tr'
  end.

(** The sequence numbers written on the wire, oldest first. *)
Definition wire_seqs (tr : list Action) : list Z :=
  List.map dap.Seq (wire tr).

(* ===================================================================== *)
(** ** The monad of Go code *)
(* ===================================================================== *)

Inductive Outcome (A : Type) : Type :=
| Done (a : A)
| Panic (why : string)
| Exit (why : string).

Arguments Done {A} a.
Arguments Panic {A} why.
Arguments Exit {A} why.

Definition Go (A : Type) : Type := State -> Outcome A * State.

Definition ret {A} (a : A) : Go A := fun s => (Done a, s).

Definition bind {A B} (m : Go A) (k : A -> Go B) : Go B :=
  fun s =>
    match m s with
    | (Done a, s') => k a s'
    | (Panic why, s') => (Panic why, s')
    | (Exit why, s') => (Exit why, s')
    end.

Declare Scope go_scope.
Delimit Scope go_scope with go.
Notation "x <- m ;; k" := (bind m (fun x => k))
  (at level 61, m at next level, right associativity) : go_scope.
Notation "m ;; k" := (bind m (fun _ => k))
  (at level 61, right associativity) : go_scope.
Local Open Scope go_scope.

Definition panic {A} (why : string) : Go A := fun s => (Panic why, s).
Definition fatal {A} (why : string) : Go A := fun s => (Exit why, s).

Definition nil_dereference : string :=
  "runtime error: invalid memory address or nil pointer dereference".

Definition index_out_of_range : string :=
  "runtime error: index out of range [0] with length 0".

Definition lift {A} (o : Outcome A) : Go A := fun s => (o, s).

Definition emit (a : Action) : Go unit :=
  fun s => (Done tt, {| ds := ds s; installed := installed s;
                        listener := listener s; trace := trace s ++ [a] |}).

Definition get_cmd : Go (option Cmd) := fun s => (Done (cmd (ds s)), s).
Definition get_client : Go (option DAPClient) :=
  fun s => (Done (client (ds s)), s).

Definition set_cmd (c : option Cmd) : Go unit :=
  fun s => (Done tt, {| ds := {| cmd := c; client := client (ds s) |};
                        installed := installed s; listener := listener s;
                        trace := trace s |}).

Definition set_client (c : option DAPClient) : Go unit :=
  fun s => (Done tt, {| ds := {| cmd := cmd (ds s); client := c |};
                        installed := installed s; listener := listener s;
                        trace := trace s |}).

(** The result of a tool handler: [(result, nil)] or [(nil, err)]. *)
Inductive ToolReturn : Type :=
| Result (text : string)
| Error (err : string).

(** [if err := m; err != nil { return nil, err }] *)
Notation "'check' m ;; k" :=
  (bind m (fun err => match err with
                      | Some e => ret (Error e)
                      | None => k
                      end))
  (at level 61, m at next level, right associativity) : go_scope.

(* ===================================================================== *)
(** ** dap.go: the client *)
(* ===================================================================== *)

(** The session holds the only pointer to a client, so the receiver [c] of
    a client method is the object [ds.client] points to.  Reading a field
    through a nil receiver panics. *)
Definition deref : Go DAPClient :=
  c <- get_client ;;
  match c with
  | Some c => ret c
  | None => panic nil_dereference
  end.

(** [newDAPClientFromConn] *)
Definition newDAPClientFromConn (netConn : Conn) : DAPClient :=
  {| conn := netConn; reader := readable netConn;
     seq := 1 (* match VS Code numbering *) |}.

(** [newDAPClient]: the dial reaches the process that listens, if any;
    a failed dial ends the bridge ([log.Fatal]).  The line printed with
    [fmt.Println] is not part of the state. *)
Definition newDAPClient (addr : string) : Go DAPClient :=
  emit (Dialed addr) ;;
  fun s =>
    match listener s with
    | Some d =>
        if accepts d
        then (Done (newDAPClientFromConn
                      {| remote := addr; conn_writable := writable d;
                         readable := messages d |}), s)
        else (Exit "dialing: connection refused", s)
    | None => (Exit "dialing: connection refused", s)
    end.

(** [Close] *)
Definition Close : Go unit :=
  _ <- deref ;;
  emit Closed.

(** [newRequest] *)
Definition newRequest (command : string) : Go dap.Request :=
  c <- deref ;;
  let request :=
    {| dap.Seq := seq c; dap.Type_ := "request"; dap.Command := command;
       dap.Args := dap.NoArguments |} in
  set_client (Some {| conn := conn c; reader := reader c;
                      seq := GoInt.incr (seq c) |}) ;;
  ret request.

(** [request.Arguments = ...] on the typed request embedding [request]. *)
Definition withArguments (request : dap.Request) (a : dap.Arguments)
  : dap.Request :=
  {| dap.Seq := dap.Seq request; dap.Type_ := dap.Type_ request;
     dap.Command := dap.Command request; dap.Args := a |}.

(** [send]: [dap.WriteProtocolMessage(c.conn, request)] *)
Definition send (request : dap.Request) : Go (option string) :=
  c <- deref ;;
  if conn_writable (conn c)
  then emit (Sent request) ;; ret None
  else ret (Some "write: broken pipe").

(** [ReadMessage]: [dap.ReadProtocolMessage(c.reader)] *)
Definition ReadMessage : Go ReadResult :=
  c <- deref ;;
  match reader c with
  | [] => ret (ReadError "EOF")
  | r :: rest =>
      set_client (Some {| conn := conn c; reader := rest; seq := seq c |}) ;;
      ret r
  end.

Definition InitializeRequest : Go (option string) :=
  request <- newRequest "initialize" ;;
  send (withArguments request
          (dap.InitializeRequestArguments "go" "path" true true true true true
             "en-us")).

Definition LaunchRequest (mode program : string) (stopOnEntry : bool)
  : Go (option string) :=
  request <- newRequest "launch" ;;
  send (withArguments request
          (dap.LaunchArguments "launch" mode program stopOnEntry)).

Definition SetBreakpointsRequest (file : string) (lines : list Z)
  : Go (option string) :=
  request <- newRequest "setBreakpoints" ;;
  send (withArguments request (dap.SetBreakpointsArguments file file lines)).

Definition SetFunctionBreakpointsRequest (functions : list string)
  : Go (option string) :=
  request <- newRequest "setFunctionBreakpoints" ;;
  send (withArguments request (dap.SetFunctionBreakpointsArguments functions)).

Definition ConfigurationDoneRequest : Go (option string) :=
  request <- newRequest "configurationDone" ;;
  send request.

Definition ContinueRequest (threadID : Z) : Go (option string) :=
  request <- newRequest "continue" ;;
  send (withArguments request (dap.ThreadArguments threadID)).

Definition NextRequest (threadID : Z) : Go (option string) :=
  request <- newRequest "next" ;;
  send (withArguments request (dap.ThreadArguments threadID)).

Definition StepInRequest (threadID : Z) : Go (option string) :=
  request <- newRequest "stepIn" ;;
  send (withArguments request (dap.ThreadArguments threadID)).

Definition StepOutRequest (threadID : Z) : Go (option string) :=
  request <- newRequest "stepOut" ;;
  send (withArguments request (dap.ThreadArguments threadID)).

Definition PauseRequest (threadID : Z) : Go (option string) :=
  request <- newRequest "pause" ;;
  send (withArguments request (dap.ThreadArguments threadID)).

Definition ThreadsRequest : Go (option string) :=
  request <- newRequest "threads" ;;
  send request.

Definition StackTraceRequest (threadID startFrame levels : Z)
  : Go (option string) :=
  request <- newRequest "stackTrace" ;;
  send (withArguments request
          (dap.StackTraceArguments threadID startFrame levels)).

Definition ScopesRequest (frameID : Z) : Go (option string) :=
  request <- newRequest "scopes" ;;
  send (withArguments request (dap.ScopesArguments frameID)).

Definition VariablesRequest (variablesReference : Z) : Go (option string) :=
  request <- newRequest "variables" ;;
  send (withArguments request (dap.VariablesArguments variablesReference)).

Definition EvaluateRequest (expression : string) (frameID : Z)
  (context : string) : Go (option string) :=
  request <- newRequest "evaluate" ;;
  send (withArguments request
          (dap.EvaluateArguments expression frameID context)).

Definition DisconnectRequest (terminateDebuggee : bool) : Go (option string) :=
  request <- newRequest "disconnect" ;;
  send (withArguments request (dap.DisconnectArguments terminateDebuggee)).

Definition ExceptionInfoRequest (threadID : Z) : Go (option string) :=
  request <- newRequest "exceptionInfo" ;;
  send (withArguments request (dap.ThreadArguments threadID)).

Definition SetVariableRequest (variablesRef : Z) (name value : string)
  : Go (option string) :=
  request <- newRequest "setVariable" ;;
  send (withArguments request
          (dap.SetVariableArguments variablesRef name value)).

(** [RestartRequest]: [restartDebugger] passes the launch arguments of the
    restart; they travel as the arguments of the request, built by
    [newRequest] and written by [send] like every other one. *)
Definition RestartRequest (arguments : dap.Arguments) : Go (option string) :=
  request <- newRequest "restart" ;;
  send (withArguments request arguments).

Definition TerminateRequest : Go (option string) :=
  request <- newRequest "terminate" ;;
  send request.

Definition StepBackRequest (threadID : Z) : Go (option string) :=
  request <- newRequest "stepBack" ;;
  send (withArguments request (dap.ThreadArguments threadID)).

Definition LoadedSourcesRequest : Go (option string) :=
  request <- newRequest "loadedSources" ;;
  send request.

Definition ModulesRequest : Go (option string) :=
  request <- newRequest "modules" ;;
  send request.

Definition BreakpointLocationsRequest (source : string) (line : Z)
  : Go (option string) :=
  request <- newRequest "breakpointLocations" ;;
  send (withArguments request (dap.BreakpointLocationsArguments source line)).

Definition CompletionsRequest (text : string) (column frameID : Z)
  : Go (option string) :=
  request <- newRequest "completions" ;;
  send (withArguments request (dap.CompletionsArguments text column frameID)).

Definition DisassembleRequest (memoryReference : string)
  (instructionOffset instructionCount : Z) : Go (option string) :=
  request <- newRequest "disassemble" ;;
  send (withArguments request
          (dap.DisassembleArguments memoryReference instructionOffset
             instructionCount)).

Definition SetExceptionBreakpointsRequest (filters : list string)
  : Go (option string) :=
  request <- newRequest "setExceptionBreakpoints" ;;
  send (withArguments request (dap.SetExceptionBreakpointsArguments filters)).

Definition DataBreakpointInfoRequest (variablesRef : Z) (name : string)
  : Go (option string) :=
  request <- newRequest "dataBreakpointInfo" ;;
  send (withArguments request
          (dap.DataBreakpointInfoArguments variablesRef name)).

Definition SetDataBreakpointsRequest (breakpoints : list string)
  : Go (option string) :=
  request <- newRequest "setDataBreakpoints" ;;
  send (withArguments request (dap.SetDataBreakpointsArguments breakpoints)).

Definition SourceRequest (sourceRef : Z) : Go (option string) :=
  request <- newRequest "source" ;;
  send (withArguments request (dap.SourceArguments sourceRef)).

Definition AttachRequest (mode : string) (processID : Z)
  : Go (option string) :=
  request <- newRequest "attach" ;;
  send (withArguments request (dap.AttachArguments "attach" mode processID)).

(** Every request method of the client, as a value, so that a sequence of
    calls can be quantified over. *)
Inductive ClientCall : Type :=
| CallInitialize
| CallLaunch (mode program : string) (stopOnEntry : bool)
| CallSetBreakpoints (file : string) (lines : list Z)
| CallSetFunctionBreakpoints (functions : list string)
| CallConfigurationDone
| CallContinue (threadID : Z)
| CallNext (threadID : Z)
| CallStepIn (threadID : Z)
| CallStepOut (threadID : Z)
| CallPause (threadID : Z)
| CallThreads
| CallStackTrace (threadID startFrame levels : Z)
| CallScopes (frameID : Z)
| CallVariables (variablesReference : Z)
| CallEvaluate (expression : string) (frameID : Z) (context : string)
| CallDisconnect (terminateDebuggee : bool)
| CallExceptionInfo (threadID : Z)
| CallSetVariable (variablesRef : Z) (name value : string)
| CallRestart (arguments : dap.Arguments)
| CallTerminate
| CallStepBack (threadID : Z)
| CallLoadedSources
| CallModules
| CallBreakpointLocations (source : string) (line : Z)
| CallCompletions (text : string) (column frameID : Z)
| CallDisassemble (memoryReference : string)
    (instructionOffset instructionCount : Z)
| CallSetExceptionBreakpoints (filters : list string)
| CallDataBreakpointInfo (variablesRef : Z) (name : string)
| CallSetDataBreakpoints (breakpoints : list string)
| CallSource (sourceRef : Z)
| CallAttach (mode : string) (processID : Z).

Definition call (k : ClientCall) : Go (option string) :=
  match k with
  | CallInitialize => InitializeRequest
  | CallLaunch mode program stopOnEntry =>
      LaunchRequest mode program stopOnEntry
  | CallSetBreakpoints file lines => SetBreakpointsRequest file lines
  | CallSetFunctionBreakpoints functions =>
      SetFunctionBreakpointsRequest functions
  | CallConfigurationDone => ConfigurationDoneRequest
  | CallContinue threadID => ContinueRequest threadID
  | CallNext threadID => NextRequest threadID
  | CallStepIn threadID => StepInRequest threadID
  | CallStepOut threadID => StepOutRequest threadID
  | CallPause threadID => PauseRequest threadID
  | CallThreads => ThreadsRequest
  | CallStackTrace threadID startFrame levels =>
      StackTraceRequest threadID startFrame levels
  | CallScopes frameID => ScopesRequest frameID
  | CallVariables variablesReference => VariablesRequest variablesReference
  | CallEvaluate expression frameID context =>
      EvaluateRequest expression frameID context
  | CallDisconnect terminateDebuggee => DisconnectRequest terminateDebuggee
  | CallExceptionInfo threadID => ExceptionInfoRequest threadID
  | CallSetVariable variablesRef name value =>
      SetVariableRequest variablesRef name value
  | CallRestart arguments => RestartRequest arguments
  | CallTerminate => TerminateRequest
  | CallStepBack threadID => StepBackRequest threadID
  | CallLoadedSources => LoadedSourcesRequest
  | CallModules => ModulesRequest
  | CallBreakpointLocations source line =>
      BreakpointLocationsRequest source line
  | CallCompletions text column frameID =>
      CompletionsRequest text column frameID
  | CallDisassemble memoryReference instructionOffset instructionCount =>
      DisassembleRequest memoryReference instructionOffset instructionCount
  | CallSetExceptionBreakpoints filters =>
      SetExceptionBreakpointsRequest filters
  | CallDataBreakpointInfo variablesRef name =>
      DataBreakpointInfoRequest variablesRef name
  | CallSetDataBreakpoints breakpoints => SetDataBreakpointsRequest breakpoints
  | CallSource sourceRef => SourceRequest sourceRef
  | CallAttach mode processID => AttachRequest mode processID
  end.


(* ===================================================================== *)
(** ** tools.go: the receive loop *)
(* ===================================================================== *)

(** What the body of one loop iteration decides. *)
Inductive Step (A : Type) : Type :=
| Return (a : A)
| Continue.

Arguments Return {A} a.
Arguments Continue {A}.

(** The loop every waiting handler is written with:
<<
    for {
        msg, err := client.ReadMessage()
        if err != nil { return failed(err) }
        switch ... msg ... { body }
    }
>>
    It runs over what the reader still delivers and gives back what it
    has not consumed. *)
Fixpoint receive {A} (failed : string -> A)
  (body : dap.ProtocolMessage -> Outcome (Step A))
  (pending : list ReadResult) : Outcome A * list ReadResult :=
  match pending with
  | [] => (Done (failed "EOF"), [])
  | ReadError err :: rest => (Done (failed err), rest)
  | Recv msg :: rest =>
      match body msg with
      | Done (Return a) => (Done a, rest)
      | Done Continue => receive failed body rest
      | Panic why => (Panic why, rest)
      | Exit why => (Exit why, rest)
      end
  end.

Definition forMessages {A} (failed : string -> A)
  (body : dap.ProtocolMessage -> Outcome (Step A)) : Go A :=
  c <- deref ;;
  let (o, rest) := receive failed body (reader c) in
  set_client (Some {| conn := conn c; reader := rest; seq := seq c |}) ;;
  lift o.

(** [readAndValidateResponse(client, errorPrefix)]; every caller passes
    [ds.client]. *)
Definition readAndValidateResponse (errorPrefix : string)
  : Go (option string) :=
  forMessages (fun err => Some err)
    (fun msg =>
       match dap.asResponseMessage msg with
       | Some resp =>
           if negb (dap.Success resp)
           then Done (Return (Some (errorPrefix ++ ": " ++ dap.Message resp)))
           else Done (Return None)
       | None =>
           (* case dap.EventMessage: continue looping *)
           Done Continue
       end).

(** [formatStoppedResponse] *)
Definition formatStoppedResponse (msg : dap.StoppedEventBody)
  : Outcome string :=
  if (dap.Reason msg =? "breakpoint")%string
     || (dap.Reason msg =? "function breakpoint")%string
  then
    match dap.HitBreakpointIds msg with
    | id0 :: _ =>
        Done ("Program stopped as a result of hitting breakpoint "
              ++ GoInt.Itoa id0 ++ " hit by thread "
              ++ GoInt.Itoa (dap.ThreadId msg))
    | [] => Panic index_out_of_range      (* [msg.HitBreakpointIds[0]] *)
    end
  else Done "Program stopped for unknown reason.".

(** The loop of [continueExecution], [nextStep], [stepIn] and [stepOut];
    the four copies in the source differ in their three texts only. *)
Definition waitForStop (unable banner terminated : string) : Go ToolReturn :=
  forMessages Error
    (fun msg =>
       match dap.asResponseMessage msg with
       | Some resp =>
           if negb (dap.Success resp)
           then Done (Return (Error (unable ++ ": " ++ dap.Message resp)))
           else Done Continue
       | None =>
           match msg with
           | dap.StoppedEvent Body =>
               match formatStoppedResponse Body with
               | Done response => Done (Return (Result (banner ++ response)))
               | Panic why => Panic why
               | Exit why => Exit why
               end
           | dap.TerminatedEvent => Done (Return (Result terminated))
           | _ => Done Continue
           end
       end).

(* ===================================================================== *)
(** ** tools.go: starting and stopping the debugger *)
(* ===================================================================== *)

(** The process that results when no [dlv] can be run any more. *)
Definition not_installed : Dlv :=
  {| pipe_error := None;
     start_error := Some "exec: dlv: executable file not found in $PATH";
     stdout_lines := []; stdout_error := "EOF"; accepts := false;
     writable := false; messages := []; kill_error := None |}.

(** [exec.Command(name, args...)]: the next process of the world. *)
Definition exec_Command (args : list string) : Go Cmd :=
  fun s =>
    match installed s with
    | [] =>
        (Done {| cmd_Args := args; program := not_installed;
                 Process := false |}, s)
    | d :: rest =>
        (Done {| cmd_Args := args; program := d; Process := false |},
         {| ds := ds s; installed := rest; listener := listener s;
            trace := trace s |})
    end.

(** Reading a field of [ds.cmd]. *)
Definition the_cmd : Go Cmd :=
  c <- get_cmd ;;
  match c with
  | Some c => ret c
  | None => panic nil_dereference
  end.

(** [ds.cmd.StdoutPipe()] *)
Definition StdoutPipe : Go (option string) :=
  c <- the_cmd ;;
  ret (pipe_error (program c)).

Definition set_listener (d : option Dlv) : Go unit :=
  fun s => (Done tt, {| ds := ds s; installed := installed s; listener := d;
                        trace := trace s |}).

(** [ds.cmd.Start()] *)
Definition Start : Go (option string) :=
  c <- the_cmd ;;
  match start_error (program c) with
  | Some err => ret (Some err)
  | None =>
      set_cmd (Some {| cmd_Args := cmd_Args c; program := program c;
                       Process := true |}) ;;
      set_listener (Some (program c)) ;;
      emit (Spawned (cmd_Args c)) ;;
      ret None
  end.

(** [ds.cmd.Process.Kill()] *)
Definition Process_Kill : Go (option string) :=
  c <- the_cmd ;;
  if Process c
  then emit Killed ;; ret (kill_error (program c))
  else panic nil_dereference.

(** [ds.cmd.Wait()], its error ignored. *)
Definition Cmd_Wait : Go unit :=
  _ <- the_cmd ;;
  emit Waited.

(** The readiness loop of [startDebugger]:
<<
    for {
        s, err := r.ReadString('\n')
        if err != nil { return nil, err }
        if strings.HasPrefix(s, "DAP server listening at") { break }
    }
>>
    [stdout] are the complete lines the pipe delivers; after them
    [ReadString] fails with [eof]. *)
Fixpoint awaitListening (stdout : list string) (eof : string)
  : Go (option string) :=
  match stdout with
  | [] => ret (Some eof)
  | s :: rest =>
      emit (StdoutLine s) ;;
      if strings.HasPrefix s "DAP server listening at"
      then ret None
      else awaitListening rest eof
  end.

(** [startDebugger] *)
Definition startDebugger (Port : string) : Go ToolReturn :=
  let port := if negb (strings.HasPrefix Port ":") then ":" ++ Port
              else Port in
  c <- exec_Command ["dlv"; "dap"; "--listen"; port; "--log";
                     "--log-output"; "dap"] ;;
  set_cmd (Some c) ;;
  check StdoutPipe ;;
  check Start ;;
  c <- the_cmd ;;
  check awaitListening (stdout_lines (program c))
                       (stdout_error (program c)) ;;
  cl <- newDAPClient ("localhost" ++ port) ;;
  set_client (Some cl) ;;
  check InitializeRequest ;;
  r <- ReadMessage ;;
  match r with
  | ReadError err => ret (Error err)
  | Recv msg =>
      match msg with
      | dap.InitializeResponse resp capabilitiesJSON =>
          ret (Result ("Started debugger at: " ++ port ++ nl ++ nl
                       ++ "Server Capabilities:" ++ nl ++ capabilitiesJSON))
      | _ => ret (Error ("unexpected response type: " ++ dap.typeName msg))
      end
  end.

(** [stopDebugger] *)
Definition stopDebugger : Go ToolReturn :=
  c <- get_cmd ;;
  match c with
  | None => ret (Result "No debugger currently executing.")
  | Some _ =>
      cl <- get_client ;;
      match cl with
      | Some _ => Close ;; set_client None
      | None => ret tt
      end ;;
      err <- Process_Kill ;;
      let finish :=
        Cmd_Wait ;;
        set_cmd None ;;
        ret (Result "Debugger stopped.") in
      match err with
      | Some e =>
          if negb (strings.Contains e "process already finished")
          then ret (Error e)
          else finish
      | None => finish
      end
  end.

(* ===================================================================== *)
(** ** tools.go: the handlers that send a request *)
(* ===================================================================== *)

(** [if ds.client == nil { return nil, fmt.Errorf("debugger not started") }] *)
Definition requireClient (k : Go ToolReturn) : Go ToolReturn :=
  c <- get_client ;;
  match c with
  | None => ret (Error "debugger not started")
  | Some _ => k
  end.

(** The tail shared by the handlers that read one message:
<<
    msg, err := ds.client.ReadMessage()
    if err != nil { return nil, err }
    if resp, ok := msg.(dap.ResponseMessage); ok {
        if !resp.GetResponse().Success {
            return nil, fmt.Errorf(unable + ": %s", resp.GetResponse().Message)
        }
        return text, nil
    }
    return nil, fmt.Errorf("unexpected response type")
>> *)
Definition readOneResponse (unable text : string) : Go ToolReturn :=
  r <- ReadMessage ;;
  match r with
  | ReadError err => ret (Error err)
  | Recv msg =>
      match dap.asResponseMessage msg with
      | Some resp =>
          if negb (dap.Success resp)
          then ret (Error (unable ++ ": " ++ dap.Message resp))
          else ret (Result text)
      | None => ret (Error "unexpected response type")
      end
  end.

(** [debugProgram] *)
Definition debugProgram (Path : string) : Go ToolReturn :=
  let path := Path in
  check LaunchRequest "debug" path true ;;
  check readAndValidateResponse
          "unable to launch program to debug via DAP server" ;;
  ret (Result ("Started debugging: " ++ path)).

(** [execProgram] *)
Definition execProgram (Path : string) : Go ToolReturn :=
  let path := Path in
  check LaunchRequest "exec" path true ;;
  check readAndValidateResponse
          "unable to exec program to debug via DAP server" ;;
  ret (Result ("Started debugging: " ++ path)).

(** The text [setBreakpoints] builds from the breakpoints of the response;
    [bp.Source.Path] reads through a pointer that may be nil. *)
Fixpoint breakpointsText (bps : list dap.Breakpoint) (breakpoints : string)
  : Outcome string :=
  match bps with
  | [] => Done breakpoints
  | bp :: rest =>
      let breakpoints := breakpoints ++ "Breakpoint " in
      if dap.bp_Verified bp
      then
        match dap.bp_Source bp with
        | Some source =>
            breakpointsText rest
              (breakpoints ++ "created at " ++ dap.Path source ++ ":"
               ++ GoInt.Itoa (dap.bp_Line bp) ++ " with ID "
               ++ GoInt.Itoa (dap.bp_Id bp))
        | None => Panic nil_dereference
        end
      else
        breakpointsText rest
          (breakpoints ++ "unable to be created: " ++ dap.bp_Message bp)
  end.

(** [setBreakpoints] *)
Definition setBreakpoints (File : string) (Lines : list Z) : Go ToolReturn :=
  requireClient (
    check SetBreakpointsRequest File Lines ;;
    r <- ReadMessage ;;
    match r with
    | ReadError err => ret (Error err)
    | Recv msg =>
        match msg with
        | dap.SetBreakpointsResponse _ Breakpoints =>
            text <- lift (breakpointsText Breakpoints "") ;;
            ret (Result text)
        | dap.ErrorResponse response => ret (Error (dap.Message response))
        | _ =>
            ret (Error "unexpected DAP response from set breakpoints request")
        end
    end).

(** [setFunctionBreakpoints] *)
Definition setFunctionBreakpoints (Functions : list string)
  : Go ToolReturn :=
  requireClient (
    check SetFunctionBreakpointsRequest Functions ;;
    check readAndValidateResponse "unable to set function breakpoints" ;;
    ret (Result ("Set breakpoints on "
                 ++ GoInt.Itoa (Z.of_nat (List.length Functions))
                 ++ " functions"))).

(** [configurationDone] *)
Definition configurationDone : Go ToolReturn :=
  requireClient (
    check ConfigurationDoneRequest ;;
    check readAndValidateResponse "unable to complete configuration" ;;
    ret (Result "Configuration done, debugging can begin")).

(** [continueExecution] *)
Definition continueExecution (ThreadID : Z) : Go ToolReturn :=
  requireClient (
    check ContinueRequest ThreadID ;;
    waitForStop "unable to continue"
      ("Continued execution..." ++ nl)
      "Continued execution to program termination").

(** [nextStep] *)
Definition nextStep (ThreadID : Z) : Go ToolReturn :=
  requireClient (
    check NextRequest ThreadID ;;
    waitForStop "unable to step to next line"
      ("Stepped to next line..." ++ nl)
      "Stepped to program termination").

(** [stepIn] *)
Definition stepIn (ThreadID : Z) : Go ToolReturn :=
  requireClient (
    check StepInRequest ThreadID ;;
    waitForStop "unable to step into function"
      ("Stepped into function..." ++ nl)
      "Stepped to program termination").

(** [stepOut] *)
Definition stepOut (ThreadID : Z) : Go ToolReturn :=
  requireClient (
    check StepOutRequest ThreadID ;;
    waitForStop "unable to step out of function"
      ("Stepped out of function..." ++ nl)
      "Stepped to program termination").

(** [pauseExecution] *)
Definition pauseExecution (ThreadID : Z) : Go ToolReturn :=
  requireClient (
    check PauseRequest ThreadID ;;
    check readAndValidateResponse "unable to pause execution" ;;
    ret (Result "Paused execution")).

(** [listThreads] *)
Definition listThreads : Go ToolReturn :=
  requireClient (
    check ThreadsRequest ;;
    readOneResponse "unable to get threads" "Retrieved thread list").

(** The frames of a stack trace, as [getStackTrace] prints them. *)
Fixpoint framesText (i : Z) (frames : list dap.StackFrame) : string :=
  match frames with
  | [] => ""
  | frame :: rest =>
      nl ++ "#" ++ GoInt.Itoa i ++ " (Frame ID: "
      ++ GoInt.Itoa (dap.frame_Id frame) ++ ") " ++ dap.frame_Name frame
      ++ match dap.frame_Source frame with
         | Some source =>
             if negb (dap.Path source =? "")%string
             then nl ++ "   at " ++ dap.Path source ++ ":"
                  ++ GoInt.Itoa (dap.frame_Line frame)
                  ++ (if 0 <? dap.frame_Column frame
                      then ":" ++ GoInt.Itoa (dap.frame_Column frame)
                      else "")
             else ""
         | None => ""
         end
      ++ (if (dap.frame_PresentationHint frame =? "subtle")%string
          then " (runtime)" else "")
      ++ nl
      ++ framesText (i + 1) rest
  end.

(** [getStackTrace] *)
Definition getStackTrace (ThreadID StartFrame Levels : Z) : Go ToolReturn :=
  requireClient (
    let levels := if Levels =? 0 then 20 else Levels in
    check StackTraceRequest ThreadID StartFrame levels ;;
    forMessages Error
      (fun msg =>
         match msg with
         | dap.StackTraceResponse resp StackFrames TotalFrames =>
             if negb (dap.Success resp)
             then Done (Return (Error ("unable to get stack trace: "
                                       ++ dap.Message resp)))
             else Done (Return (Result
                    ("Stack trace for thread " ++ GoInt.Itoa ThreadID ++ ":"
                     ++ nl ++ framesText 0 StackFrames
                     ++ nl ++ "Total frames: " ++ GoInt.Itoa TotalFrames)))
         | _ =>
             if dap.isEventMessage msg then Done Continue
             else
               match dap.asResponseMessage msg with
               | Some resp =>
                   if negb (dap.Success resp)
                   then Done (Return (Error ("unable to get stack trace: "
                                             ++ dap.Message resp)))
                   else Done (Return (Error
                     "received generic response instead of StackTraceResponse"))
               | None =>
                   Done (Return (Error ("unexpected response type: "
                                        ++ dap.typeName msg)))
               end
         end)).

(** The variables of one scope, as [getScopes] prints them. *)
Fixpoint variablesText (vars : list dap.Var) : string :=
  match vars with
  | [] => ""
  | variable :: rest =>
      "  " ++ dap.var_Name variable
      ++ (if negb (dap.var_Type variable =? "")%string
          then " (" ++ dap.var_Type variable ++ ")" else "")
      ++ " = " ++ dap.var_Value variable ++ nl
      ++ variablesText rest
  end.

(** The loop of [getScopes] over the scopes of the response; it sends one
    [variables] request per scope with a positive reference and reads one
    message for it, skipping the scope's variables on any failure. *)
Fixpoint scopesText (scopes : list dap.Scope) (result : string) : Go string :=
  match scopes with
  | [] => ret result
  | scope :: rest =>
      let result :=
        result ++ nl ++ dap.scope_Name scope ++ " (ref: "
        ++ GoInt.Itoa (dap.scope_VariablesReference scope) in
      let result :=
        if dap.scope_Expensive scope then result ++ ", expensive"
        else result in
      let result := result ++ ")" ++ nl in
      result <-
        (if 0 <? dap.scope_VariablesReference scope
         then
           err <- VariablesRequest (dap.scope_VariablesReference scope) ;;
           match err with
           | None =>
               varMsg <- ReadMessage ;;
               match varMsg with
               | Recv (dap.VariablesResponse varResp Variables) =>
                   if dap.Success varResp
                   then ret (result ++ variablesText Variables)
                   else ret result
               | _ => ret result
               end
           | Some _ => ret result
           end
         else ret result) ;;
      scopesText rest result
  end.

(** [getScopes] *)
Definition getScopes (FrameID : Z) : Go ToolReturn :=
  requireClient (
    check ScopesRequest FrameID ;;
    r <- ReadMessage ;;
    match r with
    | ReadError err => ret (Error err)
    | Recv msg =>
        match msg with
        | dap.ScopesResponse resp Scopes =>
            if negb (dap.Success resp)
            then ret (Error ("unable to get scopes: " ++ dap.Message resp))
            else
              text <- scopesText Scopes
                        ("Scopes for frame " ++ GoInt.Itoa FrameID ++ ":"
                         ++ nl) ;;
              ret (Result text)
        | _ => ret (Error "unexpected response type")
        end
    end).

(** [getVariables] *)
Definition getVariables (VariablesReference : Z) : Go ToolReturn :=
  requireClient (
    check VariablesRequest VariablesReference ;;
    readOneResponse "unable to get variables" "Retrieved variables").

(** [evaluateExpression] *)
Definition evaluateExpression (Expression : string) (FrameID : Z)
  (Context : string) : Go ToolReturn :=
  requireClient (
    let context := if (Context =? "")%string then "repl" else Context in
    check EvaluateRequest Expression FrameID context ;;
    forMessages Error
      (fun msg =>
         match msg with
         | dap.EvaluateResponse resp value type =>
             if negb (dap.Success resp)
             then Done (Return (Error ("unable to evaluate expression: "
                                       ++ dap.Message resp)))
             else
               let result := value in
               let result :=
                 if negb (type =? "")%string
                 then value ++ " (type: " ++ type ++ ")"
                 else result in
               Done (Return (Result result))
         | _ =>
             if dap.isEventMessage msg then Done Continue
             else Done (Return (Error ("unexpected response type: "
                                       ++ dap.typeName msg)))
         end)).

(** [setVariable] *)
Definition setVariable (VariablesReference : Z) (Name Value : string)
  : Go ToolReturn :=
  requireClient (
    check SetVariableRequest VariablesReference Name Value ;;
    readOneResponse "unable to set variable"
      ("Set variable " ++ Name ++ " to " ++ Value)).

(** [restartDebugger] *)
Definition restartDebugger (Args : list string) : Go ToolReturn :=
  requireClient (
    check RestartRequest (dap.RestartArguments "launch" "exec" false Args) ;;
    check readAndValidateResponse "unable to restart debugger" ;;
    ret (Result "Restarted debugging session")).

(** [terminateDebugger] *)
Definition terminateDebugger : Go ToolReturn :=
  requireClient (
    check TerminateRequest ;;
    check readAndValidateResponse "unable to terminate debugger" ;;
    ret (Result "Terminated debuggee process")).

(** [getLoadedSources] *)
Definition getLoadedSources : Go ToolReturn :=
  requireClient (
    check LoadedSourcesRequest ;;
    readOneResponse "unable to get loaded sources" "Retrieved loaded sources").

(** [getModules] *)
Definition getModules : Go ToolReturn :=
  requireClient (
    check ModulesRequest ;;
    readOneResponse "unable to get modules" "Retrieved modules").

(** [disassembleCode] *)
Definition disassembleCode (MemoryReference : string)
  (InstructionOffset InstructionCount : Z) : Go ToolReturn :=
  requireClient (
    check DisassembleRequest MemoryReference InstructionOffset
            InstructionCount ;;
    readOneResponse "unable to disassemble" "Disassembled code").

(** [attachDebugger] *)
Definition attachDebugger (Mode : string) (ProcessID : Z) : Go ToolReturn :=
  requireClient (
    check AttachRequest Mode ProcessID ;;
    check readAndValidateResponse "unable to attach to process" ;;
    ret (Result ("Attached to process " ++ GoInt.Itoa ProcessID))).

(** [disconnect] *)
Definition disconnect (TerminateDebuggee : bool) : Go ToolReturn :=
  requireClient (
    check DisconnectRequest TerminateDebuggee ;;
    check readAndValidateResponse "unable to disconnect" ;;
    Close ;;
    set_client None ;;
    ret (Result "Disconnected from debugger")).

(** [getExceptionInfo] *)
Definition getExceptionInfo (ThreadID : Z) : Go ToolReturn :=
  requireClient (
    check ExceptionInfoRequest ThreadID ;;
    readOneResponse "unable to get exception info" "Retrieved exception info").

(* ===================================================================== *)
(** ** Vocabulary of the statements *)
(* ===================================================================== *)

(** The four handlers that wait for the debuggee to stop. *)
Inductive Stepper : Type := ByContinue | ByNext | ByStepIn | ByStepOut.

Definition stepper (op : Stepper) (ThreadID : Z) : Go ToolReturn :=
  match op with
  | ByContinue => continueExecution ThreadID
  | ByNext => nextStep ThreadID
  | ByStepIn => stepIn ThreadID
  | ByStepOut => stepOut ThreadID
  end.

(** The state-inspection handlers that read a single message. *)
Inductive Query : Type :=
| QueryThreads
| QueryScopes (FrameID : Z)
| QueryVariables (VariablesReference : Z)
| QuerySetVariable (VariablesReference : Z) (Name Value : string)
| QueryLoadedSources
| QueryModules
| QueryDisassemble (MemoryReference : string)
    (InstructionOffset InstructionCount : Z)
| QueryExceptionInfo (ThreadID : Z)
| QuerySetBreakpoints (File : string) (Lines : list Z).

Definition query (q : Query) : Go ToolReturn :=
  match q with
  | QueryThreads => listThreads
  | QueryScopes FrameID => getScopes FrameID
  | QueryVariables VariablesReference => getVariables VariablesReference
  | QuerySetVariable VariablesReference Name Value =>
      setVariable VariablesReference Name Value
  | QueryLoadedSources => getLoadedSources
  | QueryModules => getModules
  | QueryDisassemble MemoryReference InstructionOffset InstructionCount =>
      disassembleCode MemoryReference InstructionOffset InstructionCount
  | QueryExceptionInfo ThreadID => getExceptionInfo ThreadID
  | QuerySetBreakpoints File Lines => setBreakpoints File Lines
  end.

(** The handlers that begin with the test [ds.client == nil]. *)
Inductive Guarded : Type :=
| ToolQuery (q : Query)
| ToolStepper (op : Stepper) (ThreadID : Z)
| ToolSetFunctionBreakpoints (Functions : list string)
| ToolConfigurationDone
| ToolPause (ThreadID : Z)
| ToolStackTrace (ThreadID StartFrame Levels : Z)
| ToolEvaluate (Expression : string) (FrameID : Z) (Context : string)
| ToolRestart (Args : list string)
| ToolTerminate
| ToolAttach (Mode : string) (ProcessID : Z)
| ToolDisconnect (TerminateDebuggee : bool).

Definition guarded (t : Guarded) : Go ToolReturn :=
  match t with
  | ToolQuery q => query q
  | ToolStepper op ThreadID => stepper op ThreadID
  | ToolSetFunctionBreakpoints Functions => setFunctionBreakpoints Functions
  | ToolConfigurationDone => configurationDone
  | ToolPause ThreadID => pauseExecution ThreadID
  | ToolStackTrace ThreadID StartFrame Levels =>
      getStackTrace ThreadID StartFrame Levels
  | ToolEvaluate Expression FrameID Context =>
      evaluateExpression Expression FrameID Context
  | ToolRestart Args => restartDebugger Args
  | ToolTerminate => terminateDebugger
  | ToolAttach Mode ProcessID => attachDebugger Mode ProcessID
  | ToolDisconnect TerminateDebuggee => disconnect TerminateDebuggee
  end.

(** The state [s] with the client [c] in place of its own. *)
Definition with_client (s : State) (c : option DAPClient) : State :=
  {| ds := {| cmd := cmd (ds s); client := c |};
     installed := installed s; listener := listener s; trace := trace s |}.

(** The state [s] after the actions [acts]. *)
Definition with_actions (s : State) (acts : list Action) : State :=
  {| ds := ds s; installed := installed s; listener := listener s;
     trace := trace s ++ acts |}.

(** The client [c] with [rest] left to read. *)
Definition left_to_read (c : DAPClient) (rest : list ReadResult)
  : DAPClient :=
  {| conn := conn c; reader := rest; seq := seq c |}.

(** The process [startDebugger] will run next. *)
Definition next_dlv (s : State) : Dlv :=
  match installed s with
  | [] => not_installed
  | d :: _ => d
  end.

(** The readiness test of [startDebugger] on one line. *)
Definition is_listening_line (line : string) : bool :=
  strings.HasPrefix line "DAP server listening at".

(** The texts with which the four stepping handlers report a stop and the
    end of the debuggee. *)
Definition stopped_banner (op : Stepper) : string :=
  match op with
  | ByContinue => "Continued execution..."
  | ByNext => "Stepped to next line..."
  | ByStepIn => "Stepped into function..."
  | ByStepOut => "Stepped out of function..."
  end.

Definition terminated_text (op : Stepper) : string :=
  match op with
  | ByContinue => "Continued execution to program termination"
  | ByNext | ByStepIn | ByStepOut => "Stepped to program termination"
  end.

(** The messages a stepping handler reads past: successful responses,
    events other than stopped and terminated, requests of the adapter. *)
Definition read_past (msg : dap.ProtocolMessage) : bool :=
  match dap.asResponseMessage msg with
  | Some resp => dap.Success resp
  | None =>
      match msg with
      | dap.StoppedEvent _ | dap.TerminatedEvent => false
      | _ => true
      end
  end.

(** The error with which a single-read query answers a message that is not
    the response it expects. *)
Definition unexpected (q : Query) : string :=
  match q with
  | QuerySetBreakpoints _ _ =>
      "unexpected DAP response from set breakpoints request"
  | _ => "unexpected response type"
  end.

(** What is left to read in a state. *)
Definition unread (s : State) : list ReadResult :=
  match client (ds s) with
  | Some c => reader c
  | None => []
  end.

(** The lines the readiness loop reads: up to and including the first
    listening line. *)
Fixpoint lines_read (stdout : list string) : list string :=
  match stdout with
  | [] => []
  | s :: rest => s :: if is_listening_line s then [] else lines_read rest
  end.

(** Scanning a trace: every dial comes after a listening line was read
    ([heard] tells whether one was read before the trace begins). *)
Fixpoint dials_after_listening (heard : bool) (acts : list Action) : bool :=
  match acts with
  | [] => true
  | StdoutLine line :: acts' =>
      dials_after_listening (heard || is_listening_line line) acts'
  | Dialed _ :: acts' => heard && dials_after_listening heard acts'
  | _ :: acts' => dials_after_listening heard acts'
  end.

Definition is_dial (a : Action) : bool :=
  match a with
  | Dialed _ => true
  | _ => false
  end.

(** The command name each request method of the client puts on the wire. *)
Definition command_of (k : ClientCall) : string :=
  match k with
  | CallInitialize => "initialize"
  | CallLaunch _ _ _ => "launch"
  | CallSetBreakpoints _ _ => "setBreakpoints"
  | CallSetFunctionBreakpoints _ => "setFunctionBreakpoints"
  | CallConfigurationDone => "configurationDone"
  | CallContinue _ => "continue"
  | CallNext _ => "next"
  | CallStepIn _ => "stepIn"
  | CallStepOut _ => "stepOut"
  | CallPause _ => "pause"
  | CallThreads => "threads"
  | CallStackTrace _ _ _ => "stackTrace"
  | CallScopes _ => "scopes"
  | CallVariables _ => "variables"
  | CallEvaluate _ _ _ => "evaluate"
  | CallDisconnect _ => "disconnect"
  | CallExceptionInfo _ => "exceptionInfo"
  | CallSetVariable _ _ _ => "setVariable"
  | CallRestart _ => "restart"
  | CallTerminate => "terminate"
  | CallStepBack _ => "stepBack"
  | CallLoadedSources => "loadedSources"
  | CallModules => "modules"
  | CallBreakpointLocations _ _ => "breakpointLocations"
  | CallCompletions _ _ _ => "completions"
  | CallDisassemble _ _ _ => "disassemble"
  | CallSetExceptionBreakpoints _ => "setExceptionBreakpoints"
  | CallDataBreakpointInfo _ _ => "dataBreakpointInfo"
  | CallSetDataBreakpoints _ => "setDataBreakpoints"
  | CallSource _ => "source"
  | CallAttach _ _ => "attach"
  end.

(** Every handler that sends a request on the connection of the session:
    the two launching handlers and the guarded ones. *)
Inductive Handler : Type :=
| HandleDebugProgram (Path : string)
| HandleExecProgram (Path : string)
| HandleGuarded (t : Guarded).

Definition handler (h : Handler) : Go ToolReturn :=
  match h with
  | HandleDebugProgram Path => debugProgram Path
  | HandleExecProgram Path => execProgram Path
  | HandleGuarded t => guarded t
  end.

(** A series of tool calls, one after the other; the answers they give. *)
Fixpoint handlers (hs : list Handler) : Go (list ToolReturn) :=
  match hs with
  | [] => ret []
  | h :: hs' =>
      r <- handler h ;;
      rs <- handlers hs' ;;
      ret (r :: rs)
  end.

(** The actions on the connection: writing a request and closing. *)
Definition on_connection (a : Action) : bool :=
  match a with
  | Sent _ | Closed => true
  | _ => false
  end.

(** The actions that end a connection or a process. *)
Definition tears_down (a : Action) : bool :=
  match a with
  | Closed | Killed | Waited => true
  | _ => false
  end.

(** The prefix of the error with which a stepping handler reports a failed
    Response. *)
Definition unable_text (op : Stepper) : string :=
  match op with
  | ByContinue => "unable to continue"
  | ByNext => "unable to step to next line"
  | ByStepIn => "unable to step into function"
  | ByStepOut => "unable to step out of function"
  end.

(** The [i]-th sequence number after [n], as [int] counts. *)
Definition nth_seq (n : Z) (i : nat) : Z := GoInt.wrap (n + Z.of_nat i).

(** A computation that works on the connection only.  Whatever the state:
    it leaves the process handle and the outside world alone and adds only
    actions on the connection; without a client it writes nothing and
    installs none; with a client on a writable connection the requests it
    writes are numbered from the client's counter on, and the client, if
    still there, is on the same connection with its counter advanced by
    the number of requests written. *)
Definition orderly {A} (m : Go A) : Prop :=
  forall s : State,
    cmd (ds (snd (m s))) = cmd (ds s)
    /\ installed (snd (m s)) = installed s
    /\ listener (snd (m s)) = listener s
    /\ exists acts,
         trace (snd (m s)) = (trace s ++ acts)%list
         /\ forallb on_connection acts = true
         /\ match client (ds s) with
            | None => client (ds (snd (m s))) = None /\ wire acts = []
            | Some c =>
                conn_writable (conn c) = true ->
                GoInt.wrap (seq c) = seq c ->
                wire_seqs acts
                = List.map (nth_seq (seq c))
                    (List.seq 0 (List.length (wire acts)))
                /\ (client (ds (snd (m s))) = None
                    \/ exists c',
                         client (ds (snd (m s))) = Some c'
                         /\ conn c' = conn c
                         /\ seq c' = nth_seq (seq c)
                                       (List.length (wire acts)))
            end.



(** ** Sample worlds *)

(** A well-behaved [dlv]: it announces its socket, accepts the connection
    and answers the initialize request. *)
Definition good_dlv : Dlv :=
  {| pipe_error := None; start_error := None;
     stdout_lines := ["DAP server listening at: 127.0.0.1:9090" ++ nl];
     stdout_error := "EOF"; accepts := true; writable := true;
     messages := [Recv (dap.InitializeResponse
                          {| dap.RequestSeq := 1; dap.Success := true;
                             dap.Message := "" |} "{}")];
     kill_error := None |}.

(** A [dlv] that prints a banner and exits without listening. *)
Definition silent_dlv : Dlv :=
  {| pipe_error := None; start_error := None;
     stdout_lines := ["could not launch process" ++ nl];
     stdout_error := "EOF"; accepts := false; writable := false;
     messages := []; kill_error := Some "os: process already finished" |}.

(** The bridge before any tool call, with the processes [world] to come. *)
Definition idle (world : list Dlv) : State :=
  {| ds := {| cmd := None; client := None |}; installed := world;
     listener := None; trace := [] |}.

(** A session whose client has sent the initialize request (its counter is
    at 2) and will read [inbound] on an open connection. *)
Definition connected (inbound : list ReadResult) : State :=
  {| ds := {| cmd := Some {| cmd_Args := ["dlv"; "dap"]; program := good_dlv;
                             Process := true |};
              client := Some {| conn := {| remote := "localhost:9090";
                                           conn_writable := true;
                                           readable := inbound |};
                                reader := inbound; seq := 2 |} |};
     installed := []; listener := Some good_dlv; trace := [] |}.

Definition ok_response (goType : string) (request_seq : Z)
  : dap.ProtocolMessage :=
  dap.OtherResponse goType
    {| dap.RequestSeq := request_seq; dap.Success := true;
       dap.Message := "" |}.

(* ===================================================================== *)
(** ** Basic facts *)
(* ===================================================================== *)

Lemma wire_app (tr1 tr2 : list Action) :
  wire (tr1 ++ tr2) = (wire tr1 ++ wire tr2)%list.
Proof.
  induction tr1 as [|a tr1 IH]; simpl; [reflexivity|].
  destruct a; simpl; rewrite ?IH; reflexivity.
Qed.

Lemma wire_seqs_app (tr1 tr2 : list Action) :
  wire_seqs (tr1 ++ tr2) = (wire_seqs tr1 ++ wire_seqs tr2)%list.
Proof.
  unfold wire_seqs. rewrite wire_app, map_app. reflexivity.
Qed.


(** Unfolding the operations of the monad. *)
Ltac go :=
  repeat (cbv beta delta
            [bind ret lift panic fatal emit get_cmd get_client set_cmd
             set_client set_listener deref the_cmd requireClient
             with_client with_actions left_to_read] in *;
          cbn beta iota zeta delta [ds cmd client installed listener trace
                                    conn reader seq fst snd] in *).

(** One request method on an open connection: it returns nil, writes one
    request carrying the counter, and advances the counter by one. *)
Lemma call_sends_counter (k : ClientCall) (s : State) (c : DAPClient) :
  client (ds s) = Some c ->
  conn_writable (conn c) = true ->
  exists request,
    call k s =
      (Done None,
       with_actions
         (with_client s (Some {| conn := conn c; reader := reader c;
                                 seq := GoInt.incr (seq c) |}))
         [Sent request])
    /\ dap.Seq request = seq c
    /\ dap.Command request = command_of k.
Proof.
  intros Hc Hw.
  destruct s as [[cm cl] ins lis tr]; simpl in Hc; subst cl.
  destruct k; cbn -[GoInt.incr]; go; rewrite Hw; cbn -[GoInt.incr];
    eexists; repeat split; reflexivity.
Qed.

(* ===================================================================== *)
(** ** The request sequencer *)
(* ===================================================================== *)






(* ===================================================================== *)
(** ** The response correlator *)
(* ===================================================================== *)

(** The loop combinator is the loop of the source: one [ReadMessage] per
    iteration, the read error ends it, the body decides otherwise. *)
Lemma forMessages_unfold {A} (failed : string -> A)
  (body : dap.ProtocolMessage -> Outcome (Step A)) (s : State) :
  forMessages failed body s =
  (r <- ReadMessage ;;
   match r with
   | ReadError err => ret (failed err)
   | Recv msg =>
       st <- lift (body msg) ;;
       match st with
       | Return a => ret a
       | Continue => forMessages failed body
       end
   end) s.
Proof.
  destruct s as [[cm [[cn rd sq]|]] ins lis tr]; [|reflexivity].
  unfold forMessages, ReadMessage. go.
  destruct rd as [|[msg|err] rest]; cbn [receive]; [reflexivity| |reflexivity].
  destruct (body msg) as [[a|]|why|why]; try reflexivity.
  go. destruct (receive failed body rest) as [o rest']. reflexivity.
Qed.

Lemma forMessages_run {A} (failed : string -> A)
  (body : dap.ProtocolMessage -> Outcome (Step A)) (s : State)
  (c : DAPClient) :
  client (ds s) = Some c ->
  forMessages failed body s =
    (fst (receive failed body (reader c)),
     with_client s
       (Some (left_to_read c (snd (receive failed body (reader c)))))).
Proof.
  intros Hc. destruct s as [[cm cl] ins lis tr]. simpl in Hc. subst cl.
  unfold forMessages. go.
  destruct (receive failed body (reader c)) as [o rest]. reflexivity.
Qed.

(** Messages on which the body continues are consumed one by one. *)
Lemma receive_skips {A} (failed : string -> A)
  (body : dap.ProtocolMessage -> Outcome (Step A))
  (skipped : list dap.ProtocolMessage) (rest : list ReadResult) :
  (forall msg, In msg skipped -> body msg = Done Continue) ->
  receive failed body (List.map Recv skipped ++ rest)%list
  = receive failed body rest.
Proof.
  induction skipped as [|m skipped IH]; intros Hskip; [reflexivity|].
  simpl. rewrite (Hskip m (or_introl eq_refl)).
  apply IH. intros msg Hin. apply Hskip. right. exact Hin.
Qed.

(** The run of [readAndValidateResponse] up to the first Response. *)
Lemma readAndValidateResponse_run
  (errorPrefix : string) (s : State) (c : DAPClient)
  (events : list dap.ProtocolMessage) (msg : dap.ProtocolMessage)
  (resp : dap.Response) (rest : list ReadResult) :
  client (ds s) = Some c ->
  reader c = (List.map Recv events ++ Recv msg :: rest)%list ->
  (forall ev, In ev events -> dap.asResponseMessage ev = None) ->
  dap.asResponseMessage msg = Some resp ->
  readAndValidateResponse errorPrefix s =
    (Done (if dap.Success resp then None
           else Some (errorPrefix ++ ": " ++ dap.Message resp)),
     with_client s (Some (left_to_read c rest))).
Proof.
  intros Hc Hrd Hev Hresp.
  unfold readAndValidateResponse.
  rewrite (forMessages_run _ _ s c Hc), Hrd, receive_skips.
  - cbn [receive]. rewrite Hresp.
    destruct (dap.Success resp); reflexivity.
  - intros ev Hin. rewrite (Hev ev Hin). reflexivity.
Qed.

(** C1 (amended). The loop returns at the first Response it reads,
    whatever sequence number that Response carries: nil when the Response
    reports success, and otherwise an error made of the prefix and the
    message of the Response.  The messages before it that are not
    Responses are consumed and ignored.  The sequence number of the
    Response is not looked at and no desynchronisation error exists. *)
Theorem readAndValidateResponse_returns_first_response
  (errorPrefix : string) (s : State) (c : DAPClient)
  (events : list dap.ProtocolMessage) (msg : dap.ProtocolMessage)
  (resp : dap.Response) (rest : list ReadResult) :
  client (ds s) = Some c ->
  reader c = (List.map Recv events ++ Recv msg :: rest)%list ->
  (forall ev, In ev events -> dap.asResponseMessage ev = None) ->
  dap.asResponseMessage msg = Some resp ->
  (forall awaited : Z,
      dap.RequestSeq resp <> awaited ->
      readAndValidateResponse errorPrefix s =
        (Done (if dap.Success resp then None
               else Some (errorPrefix ++ ": " ++ dap.Message resp)),
         with_client s (Some (left_to_read c rest))))
  /\ readAndValidateResponse errorPrefix s =
       (Done (if dap.Success resp then None
              else Some (errorPrefix ++ ": " ++ dap.Message resp)),
        with_client s (Some (left_to_read c rest))).
Proof.
  intros Hc Hrd Hev Hresp.
  assert (Hrun := readAndValidateResponse_run errorPrefix s c events msg
                    resp rest Hc Hrd Hev Hresp).
  split; [intros awaited _|]; exact Hrun.
Qed.

Lemma readAndValidateResponse_returns_first_response_witness :
  let inbound := [Recv (dap.OtherEvent "*dap.OutputEvent");
                  Recv (ok_response "*dap.PauseResponse" 7);
                  Recv dap.TerminatedEvent] in
  let s := connected inbound in
  fst (readAndValidateResponse "unable to pause execution" s) = Done None
  /\ unread (snd (readAndValidateResponse "unable to pause execution" s))
     = [Recv dap.TerminatedEvent].
Proof.
  intros inbound s.
  destruct (readAndValidateResponse_returns_first_response
              "unable to pause execution" s
              {| conn := {| remote := "localhost:9090"; conn_writable := true;
                            readable := inbound |};
                 reader := inbound; seq := 2 |}
              [dap.OtherEvent "*dap.OutputEvent"]
              (ok_response "*dap.PauseResponse" 7)
              {| dap.RequestSeq := 7; dap.Success := true;
                 dap.Message := "" |}
              [Recv dap.TerminatedEvent]) as [_ Hrun].
  - reflexivity.
  - reflexivity.
  - intros ev [Hev|[]]. subst ev. reflexivity.
  - reflexivity.
  - rewrite Hrun. split; reflexivity.
Defined.

(** C1 (counterexample). The launch request goes out with sequence number
    2; the only Response that arrives answers sequence number 99; the loop
    returns nil and the handler reports success. *)
Lemma stale_response_is_accepted :
  let s0 := connected [Recv (ok_response "*dap.LaunchResponse" 99)] in
  exists s1 s2,
    LaunchRequest "debug" "/bin/prog" true s0 = (Done None, s1)
    /\ wire_seqs (trace s1) = [2]
    /\ readAndValidateResponse
         "unable to launch program to debug via DAP server" s1
       = (Done None, s2)
    /\ debugProgram "/bin/prog" s0
       = (Done (Result "Started debugging: /bin/prog"), s2).
Proof.
  intros s0. eexists. eexists.
  split; [reflexivity|]. split; [reflexivity|]. split; reflexivity.
Qed.

(** A guarded handler on an open connection: the nil test passes, the
    request goes out with the counter, and the handler continues. *)
Lemma guarded_request (k : ClientCall) (continuation : Go ToolReturn)
  (s : State) (c : DAPClient) :
  client (ds s) = Some c ->
  conn_writable (conn c) = true ->
  exists request,
    requireClient
      (bind (call k)
         (fun err => match err with
                     | Some e => ret (Error e)
                     | None => continuation
                     end)) s
    = continuation
        (with_actions
           (with_client s (Some {| conn := conn c; reader := reader c;
                                   seq := GoInt.incr (seq c) |}))
           [Sent request])
    /\ dap.Seq request = seq c.
Proof.
  intros Hc Hw.
  destruct (call_sends_counter k s c Hc Hw) as [request [Hcall [Hseq _]]].
  exists request. split; [|exact Hseq].
  unfold requireClient, bind at 1, get_client. rewrite Hc.
  unfold bind. rewrite Hcall. reflexivity.
Qed.

Lemma waitForStop_stopped (unable banner terminated : string) (s : State)
  (c : DAPClient) (before : list dap.ProtocolMessage)
  (body : dap.StoppedEventBody) (description : string)
  (rest : list ReadResult) :
  client (ds s) = Some c ->
  (forall m, In m before -> read_past m = true) ->
  reader c = (List.map Recv before ++ Recv (dap.StoppedEvent body) :: rest)%list ->
  formatStoppedResponse body = Done description ->
  waitForStop unable banner terminated s =
    (Done (Result (banner ++ description)),
     with_client s (Some (left_to_read c rest))).
Proof.
  intros Hc Hpast Hrd Hfmt. unfold waitForStop.
  rewrite (forMessages_run _ _ s c Hc), Hrd, receive_skips.
  - cbn [receive dap.asResponseMessage]. rewrite Hfmt. reflexivity.
  - intros m Hin. specialize (Hpast m Hin). unfold read_past in Hpast.
    destruct (dap.asResponseMessage m) as [resp|].
    + rewrite Hpast. reflexivity.
    + destruct m; try reflexivity; discriminate.
Qed.

Lemma waitForStop_terminated (unable banner terminated : string) (s : State)
  (c : DAPClient) (before : list dap.ProtocolMessage)
  (rest : list ReadResult) :
  client (ds s) = Some c ->
  (forall m, In m before -> read_past m = true) ->
  reader c = (List.map Recv before ++ Recv dap.TerminatedEvent :: rest)%list ->
  waitForStop unable banner terminated s =
    (Done (Result terminated), with_client s (Some (left_to_read c rest))).
Proof.
  intros Hc Hpast Hrd. unfold waitForStop.
  rewrite (forMessages_run _ _ s c Hc), Hrd, receive_skips.
  - reflexivity.
  - intros m Hin. specialize (Hpast m Hin). unfold read_past in Hpast.
    destruct (dap.asResponseMessage m) as [resp|].
    + rewrite Hpast. reflexivity.
    + destruct m; try reflexivity; discriminate.
Qed.

(** C5 (amended). For continue, next, step-in and step-out the wait loop
    inspects events: it reads past successful responses and other events,
    a stopped event whose body can be formatted ends the wait with the
    handler's banner followed by the description of the stop, and a
    terminated event ends it with the handler's termination text.  Pause
    does not inspect events: it reads past every event, stopped and
    terminated ones included, and ends at the first Response. *)
Theorem steppers_end_at_stop_and_pause_at_response
  (ThreadID : Z) (s : State) (c : DAPClient) (rest : list ReadResult) :
  client (ds s) = Some c ->
  conn_writable (conn c) = true ->
  (forall op before body description,
      (forall m, In m before -> read_past m = true) ->
      reader c = (List.map Recv before
                  ++ Recv (dap.StoppedEvent body) :: rest)%list ->
      formatStoppedResponse body = Done description ->
      fst (stepper op ThreadID s)
        = Done (Result (stopped_banner op ++ nl ++ description))
      /\ unread (snd (stepper op ThreadID s)) = rest)
  /\ (forall op before,
        (forall m, In m before -> read_past m = true) ->
        reader c = (List.map Recv before
                    ++ Recv dap.TerminatedEvent :: rest)%list ->
        fst (stepper op ThreadID s) = Done (Result (terminated_text op))
        /\ unread (snd (stepper op ThreadID s)) = rest)
  /\ (forall events msg resp,
        (forall ev, In ev events -> dap.asResponseMessage ev = None) ->
        reader c = (List.map Recv events ++ Recv msg :: rest)%list ->
        dap.asResponseMessage msg = Some resp ->
        fst (pauseExecution ThreadID s)
          = Done (if dap.Success resp then Result "Paused execution"
                  else Error ("unable to pause execution: "
                              ++ dap.Message resp))
        /\ unread (snd (pauseExecution ThreadID s)) = rest).
Proof.
  intros Hc Hw. split; [|split].
  - intros op before body description Hpast Hrd Hfmt.
    destruct op;
      [ destruct (guarded_request (CallContinue ThreadID)
                    (waitForStop "unable to continue"
                       ("Continued execution..." ++ nl)
                       "Continued execution to program termination")
                    s c Hc Hw) as [request [Hrun _]]
      | destruct (guarded_request (CallNext ThreadID)
                    (waitForStop "unable to step to next line"
                       ("Stepped to next line..." ++ nl)
                       "Stepped to program termination")
                    s c Hc Hw) as [request [Hrun _]]
      | destruct (guarded_request (CallStepIn ThreadID)
                    (waitForStop "unable to step into function"
                       ("Stepped into function..." ++ nl)
                       "Stepped to program termination")
                    s c Hc Hw) as [request [Hrun _]]
      | destruct (guarded_request (CallStepOut ThreadID)
                    (waitForStop "unable to step out of function"
                       ("Stepped out of function..." ++ nl)
                       "Stepped to program termination")
                    s c Hc Hw) as [request [Hrun _]] ];
      cbn [stepper]; unfold continueExecution, nextStep, stepIn, stepOut;
      cbn [call] in Hrun; rewrite Hrun;
      erewrite waitForStop_stopped by
          (try exact Hpast; try exact Hfmt; try exact Hrd; reflexivity);
      split; reflexivity.
  - intros op before Hpast Hrd.
    destruct op;
      [ destruct (guarded_request (CallContinue ThreadID)
                    (waitForStop "unable to continue"
                       ("Continued execution..." ++ nl)
                       "Continued execution to program termination")
                    s c Hc Hw) as [request [Hrun _]]
      | destruct (guarded_request (CallNext ThreadID)
                    (waitForStop "unable to step to next line"
                       ("Stepped to next line..." ++ nl)
                       "Stepped to program termination")
                    s c Hc Hw) as [request [Hrun _]]
      | destruct (guarded_request (CallStepIn ThreadID)
                    (waitForStop "unable to step into function"
                       ("Stepped into function..." ++ nl)
                       "Stepped to program termination")
                    s c Hc Hw) as [request [Hrun _]]
      | destruct (guarded_request (CallStepOut ThreadID)
                    (waitForStop "unable to step out of function"
                       ("Stepped out of function..." ++ nl)
                       "Stepped to program termination")
                    s c Hc Hw) as [request [Hrun _]] ];
      cbn [stepper]; unfold continueExecution, nextStep, stepIn, stepOut;
      cbn [call] in Hrun; rewrite Hrun;
      erewrite waitForStop_terminated by
          (try exact Hpast; try exact Hrd; reflexivity);
      split; reflexivity.
  - intros events msg resp Hev Hrd Hresp.
    destruct (guarded_request (CallPause ThreadID)
                (bind (readAndValidateResponse "unable to pause execution")
                   (fun err => match err with
                               | Some e => ret (Error e)
                               | None => ret (Result "Paused execution")
                               end))
                s c Hc Hw) as [request [Hrun _]].
    unfold pauseExecution. cbn [call] in Hrun. rewrite Hrun.
    unfold bind.
    erewrite readAndValidateResponse_run by
        (try exact Hev; try exact Hresp; try exact Hrd; reflexivity).
    destruct (dap.Success resp); split; reflexivity.
Qed.

Lemma steppers_end_at_stop_and_pause_at_response_witness :
  let stop := dap.StoppedEvent {| dap.Reason := "breakpoint";
                                  dap.ThreadId := 1;
                                  dap.HitBreakpointIds := [3] |} in
  let inbound := [Recv (ok_response "*dap.ContinueResponse" 2); Recv stop] in
  fst (continueExecution 1 (connected inbound))
  = Done (Result ("Continued execution..." ++ nl
                  ++ "Program stopped as a result of hitting breakpoint 3"
                  ++ " hit by thread 1"))
  /\ unread (snd (continueExecution 1 (connected inbound))) = [].
Proof.
  intros stop inbound.
  destruct (steppers_end_at_stop_and_pause_at_response 1 (connected inbound)
              {| conn := {| remote := "localhost:9090"; conn_writable := true;
                            readable := inbound |};
                 reader := inbound; seq := 2 |}
              [] eq_refl eq_refl) as [Hstop _].
  apply (Hstop ByContinue [ok_response "*dap.ContinueResponse" 2]
           {| dap.Reason := "breakpoint"; dap.ThreadId := 1;
              dap.HitBreakpointIds := [3] |}
           ("Program stopped as a result of hitting breakpoint 3"
            ++ " hit by thread 1")).
  - intros m [Hm|[]]. subst m. reflexivity.
  - reflexivity.
  - reflexivity.
Defined.

(** C5 (counterexample). Pause is sent while the debuggee runs; the
    adapter announces the stop and then answers the request.  The stopped
    event does not end the wait and no description of the stop is given:
    the handler reads on to the Response.  When the debuggee terminates
    instead, the terminated event is read past as well and the handler
    fails at the end of the stream. *)
Lemma pause_reads_past_stopped_and_terminated :
  let stop := dap.StoppedEvent {| dap.Reason := "pause"; dap.ThreadId := 1;
                                  dap.HitBreakpointIds := [] |} in
  let s := connected [Recv stop; Recv (ok_response "*dap.PauseResponse" 2)] in
  let t := connected [Recv dap.TerminatedEvent] in
  fst (pauseExecution 1 s) = Done (Result "Paused execution")
  /\ unread (snd (pauseExecution 1 s)) = []
  /\ fst (pauseExecution 1 t) = Done (Error "EOF").
Proof.
  intros stop s t. split; [|split]; reflexivity.
Qed.

(** A query that reads a single message fails when that message is an
    event; the Response behind the event stays unread. *)
Lemma query_fails_on_event_before_response
  (q : Query) (s : State) (c : DAPClient) (ev : dap.ProtocolMessage)
  (rest : list ReadResult) :
  client (ds s) = Some c ->
  conn_writable (conn c) = true ->
  reader c = Recv ev :: rest ->
  dap.isEventMessage ev = true ->
  fst (query q s) = Done (Error (unexpected q))
  /\ unread (snd (query q s)) = rest.
Proof.
  intros Hc Hw Hrd Hev.
  destruct s as [[cm cl] ins lis tr]. simpl in Hc. subst cl.
  destruct c as [[rem w rdb] rd sq]. simpl in Hw, Hrd. subst w rd.
  destruct ev; try discriminate Hev; destruct q; split; reflexivity.
Qed.

(** C4 (failing input). [listThreads] is called while an output event is
    queued before the threads response: it fails. *)
Theorem listThreads_fails_on_event_before_response :
  let inbound := [Recv (dap.OtherEvent "*dap.OutputEvent");
                  Recv (ok_response "*dap.ThreadsResponse" 2)] in
  fst (listThreads (connected inbound))
  = Done (Error "unexpected response type")
  /\ unread (snd (listThreads (connected inbound)))
     = [Recv (ok_response "*dap.ThreadsResponse" 2)]
  /\ forall q,
       fst (query q (connected inbound)) = Done (Error (unexpected q)).
Proof.
  intros inbound. split; [reflexivity|]. split; [reflexivity|].
  intros q. destruct q; reflexivity.
Qed.

(* ===================================================================== *)
(** ** Calls without a session *)
(* ===================================================================== *)

(** The handlers that test [ds.client == nil] answer "debugger not
    started" and leave the state as it is. *)
Lemma guarded_without_client (t : Guarded) (s : State) :
  client (ds s) = None ->
  guarded t s = (Done (Error "debugger not started"), s).
Proof.
  intros Hc.
  destruct t as [q|op tid| | | | | | | | |];
    try destruct q; try destruct op;
    cbn [guarded query stepper];
    unfold listThreads, getScopes, getVariables, setVariable,
      getLoadedSources, getModules, disassembleCode, getExceptionInfo,
      setBreakpoints, continueExecution, nextStep, stepIn, stepOut,
      setFunctionBreakpoints, configurationDone, pauseExecution,
      getStackTrace, evaluateExpression, restartDebugger, terminateDebugger,
      attachDebugger, disconnect, requireClient, bind, get_client;
    rewrite Hc; reflexivity.
Qed.

(** [debugProgram] and [execProgram] reach [newRequest] with the nil
    client, whatever the rest of the state. *)
Lemma launch_without_client_panics (Path : string) (s : State) :
  client (ds s) = None ->
  debugProgram Path s = (Panic nil_dereference, s)
  /\ execProgram Path s = (Panic nil_dereference, s).
Proof.
  destruct s as [[cm cl] ins lis tr]. simpl. intros ->.
  split; reflexivity.
Qed.

(** C3 (failing input). [debugProgram] and [execProgram] have no such test:
    without a client the launch request is built through the nil client
    and the handler panics. *)
Theorem debugProgram_without_client_panics :
  debugProgram "/bin/prog" (idle []) = (Panic nil_dereference, idle [])
  /\ execProgram "/bin/prog" (idle []) = (Panic nil_dereference, idle [])
  /\ continueExecution 1 (idle [])
     = (Done (Error "debugger not started"), idle []).
Proof.
  split; [|split]; reflexivity.
Qed.

(* ===================================================================== *)
(** ** The description of a stop *)
(* ===================================================================== *)

(** Where [formatStoppedResponse] returns. *)
Lemma formatStoppedResponse_returns (msg : dap.StoppedEventBody) :
  (dap.Reason msg = "breakpoint" \/ dap.Reason msg = "function breakpoint" ->
   forall id0 ids,
     dap.HitBreakpointIds msg = id0 :: ids ->
     formatStoppedResponse msg =
       Done ("Program stopped as a result of hitting breakpoint "
             ++ GoInt.Itoa id0 ++ " hit by thread "
             ++ GoInt.Itoa (dap.ThreadId msg)))
  /\ (dap.Reason msg <> "breakpoint" ->
      dap.Reason msg <> "function breakpoint" ->
      formatStoppedResponse msg = Done "Program stopped for unknown reason.").
Proof.
  unfold formatStoppedResponse. split.
  - intros Hreason id0 ids Hids. rewrite Hids.
    destruct Hreason as [-> | ->]; reflexivity.
  - intros H1 H2.
    apply String.eqb_neq in H1. apply String.eqb_neq in H2.
    rewrite H1, H2. reflexivity.
Qed.

(** C6 (failing input). A stopped event with reason "breakpoint" and no hit
    breakpoint ids: the formatter indexes the empty list and panics. *)
Theorem formatStoppedResponse_panics_on_empty_ids :
  formatStoppedResponse
    {| dap.Reason := "breakpoint"; dap.ThreadId := 1;
       dap.HitBreakpointIds := [] |}
  = Panic index_out_of_range
  /\ fst (continueExecution 1
            (connected [Recv (dap.StoppedEvent
                                {| dap.Reason := "breakpoint";
                                   dap.ThreadId := 1;
                                   dap.HitBreakpointIds := [] |})]))
     = Panic index_out_of_range.
Proof.
  split; reflexivity.
Qed.

(* ===================================================================== *)
(** ** Starting and stopping *)
(* ===================================================================== *)

Lemma with_actions_nil (s : State) : with_actions s [] = s.
Proof.
  destruct s as [d ins lis tr]. unfold with_actions. simpl.
  rewrite app_nil_r. reflexivity.
Qed.

Lemma with_actions_app (s : State) (l1 l2 : list Action) :
  with_actions (with_actions s l1) l2 = with_actions s (l1 ++ l2).
Proof.
  unfold with_actions. simpl. rewrite app_assoc. reflexivity.
Qed.

(** The readiness loop reads [lines_read stdout] and succeeds exactly when a
    listening line is among the lines of the pipe. *)
Lemma awaitListening_run (stdout : list string) (eof : string) :
  forall s : State,
    awaitListening stdout eof s =
      (Done (if existsb is_listening_line stdout then None else Some eof),
       with_actions s (List.map StdoutLine (lines_read stdout))).
Proof.
  induction stdout as [|line stdout IH]; intros s.
  - simpl. rewrite with_actions_nil. reflexivity.
  - cbn [awaitListening lines_read existsb].
    unfold bind at 1. unfold emit.
    fold (with_actions s [StdoutLine line]).
    fold (is_listening_line line).
    destruct (is_listening_line line).
    + reflexivity.
    + rewrite IH, with_actions_app. reflexivity.
Qed.

Lemma lines_read_listening (stdout : list string) :
  existsb is_listening_line (lines_read stdout)
  = existsb is_listening_line stdout.
Proof.
  induction stdout as [|line stdout IH]; [reflexivity|].
  simpl. destruct (is_listening_line line) eqn:E; simpl; rewrite ?E;
    [reflexivity | exact IH].
Qed.

Lemma dials_after_listening_lines (heard : bool) (lines : list string)
  (acts : list Action) :
  dials_after_listening heard (List.map StdoutLine lines ++ acts)
  = dials_after_listening (heard || existsb is_listening_line lines) acts.
Proof.
  revert heard. induction lines as [|line lines IH]; intros heard.
  - simpl. rewrite orb_false_r. reflexivity.
  - simpl. rewrite IH, orb_assoc. reflexivity.
Qed.

(** What the scan establishes. *)
Lemma dials_after_listening_sound (acts : list Action) :
  forall heard,
    dials_after_listening heard acts = true ->
    forall pre addr post,
      acts = (pre ++ Dialed addr :: post)%list ->
      heard = true
      \/ exists line, In (StdoutLine line) pre /\ is_listening_line line = true.
Proof.
  induction acts as [|a acts IH]; intros heard Hscan pre addr post Hsplit.
  - destruct pre; discriminate.
  - destruct pre as [|b pre]; simpl in Hsplit; inversion Hsplit; subst.
    + simpl in Hscan. apply andb_prop in Hscan. left. apply Hscan.
    + assert (Hrest : forall h, dials_after_listening h
                                  (pre ++ Dialed addr :: post) = true ->
                      h = true \/ exists line, In (StdoutLine line) pre
                                   /\ is_listening_line line = true).
      { intros h Hh. exact (IH h Hh pre addr post eq_refl). }
      destruct b as [args|line0|addr0|request| | |]; simpl in Hscan;
        try (apply andb_prop in Hscan; destruct Hscan as [_ Hscan]);
        destruct (Hrest _ Hscan) as [Hh | [line [Hin Hl]]];
        try (left; exact Hh);
        try (right; exists line; split; [right; exact Hin | exact Hl]).
      apply orb_prop in Hh. destruct Hh as [Hh | Hh].
      * left. exact Hh.
      * right. exists line0. split; [left; reflexivity | exact Hh].
Qed.

Lemma no_dial_sound (acts : list Action) :
  existsb is_dial acts = false -> forall addr, ~ In (Dialed addr) acts.
Proof.
  intros Hno addr Hin.
  assert (H : existsb is_dial acts = true).
  { apply existsb_exists. exists (Dialed addr). split; [exact Hin|reflexivity]. }
  congruence.
Qed.

Lemma no_dial_in_lines (lines : list string) :
  existsb is_dial (List.map StdoutLine lines) = false.
Proof.
  induction lines as [|l lines IH]; [reflexivity | exact IH].
Qed.

Lemma dials_after_listening_only_lines (heard : bool) (lines : list string) :
  dials_after_listening heard (List.map StdoutLine lines) = true.
Proof.
  revert heard. induction lines as [|l lines IH]; intros heard;
    [reflexivity | apply IH].
Qed.

Lemma wire_lines (lines : list string) (acts : list Action) :
  wire (List.map StdoutLine lines ++ acts) = wire acts.
Proof.
  induction lines as [|l lines IH]; [reflexivity | exact IH].
Qed.

Lemma is_dial_lines (lines : list string) (acts : list Action) :
  existsb is_dial (List.map StdoutLine lines ++ acts) = existsb is_dial acts.
Proof.
  induction lines as [|l lines IH]; [reflexivity | exact IH].
Qed.

(** The four parts of [startDebugger_cases] in one branch of the run. *)
Ltac start_goals :=
  eexists; cbn;
  repeat match goal with |- _ /\ _ => split end;
  [ repeat rewrite <- app_assoc; reflexivity
  | cbn;
    rewrite ?dials_after_listening_lines, ?lines_read_listening;
    try apply dials_after_listening_only_lines
  | intros Hno; try discriminate Hno
  | intros text Hres; try discriminate Hres ].

(** Every run of [startDebugger], by the behaviour of the process it
    starts. *)
Lemma startDebugger_cases (Port : string) (s : State) :
  exists acts,
    trace (snd (startDebugger Port s)) = (trace s ++ acts)%list
    /\ dials_after_listening false acts = true
    /\ (existsb is_listening_line (stdout_lines (next_dlv s)) = false ->
        (exists err, fst (startDebugger Port s) = Done (Error err))
        /\ existsb is_dial acts = false
        /\ client (ds (snd (startDebugger Port s))) = client (ds s))
    /\ (forall text,
          fst (startDebugger Port s) = Done (Result text) ->
          exists c, client (ds (snd (startDebugger Port s))) = Some c
                    /\ seq c = 2 /\ wire_seqs acts = [1]).
Proof.
  destruct s as [[cm cl] ins lis tr].
  unfold startDebugger.
  set (port := if negb (strings.HasPrefix Port ":") then ":" ++ Port else Port).
  unfold next_dlv. cbn [installed].
  destruct ins as [|d rest].
  - exists []. cbn. rewrite app_nil_r.
    repeat match goal with |- _ /\ _ => split end; try reflexivity.
    + intros _. repeat split. eexists; reflexivity.
    + intros text H; discriminate H.
  - unfold exec_Command, StdoutPipe, Start. go.
    cbn [program pipe_error start_error cmd_Args].
    destruct (pipe_error d) as [e|].
    { exists []. cbn. rewrite app_nil_r.
      repeat match goal with |- _ /\ _ => split end; try reflexivity.
      + intros _. repeat split. eexists; reflexivity.
      + intros text H; discriminate H. }
    go. cbn [program pipe_error start_error cmd_Args].
    destruct (start_error d) as [e|].
    { exists []. cbn. rewrite app_nil_r.
      repeat match goal with |- _ /\ _ => split end; try reflexivity.
      + intros _. repeat split. eexists; reflexivity.
      + intros text H; discriminate H. }
    go. cbn [program stdout_lines stdout_error].
    rewrite awaitListening_run.
    destruct (existsb is_listening_line (stdout_lines d)) eqn:Hready.
    2:{ start_goals.
        repeat split; [eexists; reflexivity|].
        cbn. apply no_dial_in_lines. }
    unfold newDAPClient, InitializeRequest, newRequest, send, ReadMessage.
    go. cbn.
    destruct (accepts d).
    2:{ start_goals. rewrite Hready. reflexivity. }
    cbn. destruct (writable d).
    2:{ start_goals. rewrite Hready. reflexivity. }
    cbn. destruct (messages d) as [|[msg|err] inbound].
    { start_goals. rewrite Hready. reflexivity. }
    2:{ start_goals. rewrite Hready. reflexivity. }
    destruct msg; start_goals; try (rewrite Hready; reflexivity).
    eexists. split; [reflexivity|]. split; [reflexivity|].
    unfold wire_seqs. cbn. rewrite wire_lines. reflexivity.
Qed.

(** C8. [startDebugger] dials the debugger's socket only after it has read,
    line by line from the child's standard output, a line that starts with
    "DAP server listening at"; when the output ends or fails before such a
    line, it returns an error, dials nothing and installs no client. *)
Theorem startDebugger_dials_only_after_listening_line
  (Port : string) (s : State) :
  exists acts,
    trace (snd (startDebugger Port s)) = (trace s ++ acts)%list
    /\ (forall pre addr post,
           acts = (pre ++ Dialed addr :: post)%list ->
           exists line,
             In (StdoutLine line) pre
             /\ strings.HasPrefix line "DAP server listening at" = true)
    /\ (existsb is_listening_line (stdout_lines (next_dlv s)) = false ->
        (exists err, fst (startDebugger Port s) = Done (Error err))
        /\ (forall addr, ~ In (Dialed addr) acts)
        /\ client (ds (snd (startDebugger Port s))) = client (ds s)).
Proof.
  destruct (startDebugger_cases Port s)
    as [acts [Htrace [Hscan [Hsilent _]]]].
  exists acts. split; [exact Htrace|]. split.
  - intros pre addr post Hsplit.
    destruct (dials_after_listening_sound acts false Hscan pre addr post
                Hsplit) as [Hheard | Hline];
      [discriminate Hheard | exact Hline].
  - intros Hno. destruct (Hsilent Hno) as [Herr [Hdial Hclient]].
    split; [exact Herr|]. split; [|exact Hclient].
    apply no_dial_sound. exact Hdial.
Qed.

Lemma startDebugger_dials_only_after_listening_line_witness :
  (exists err,
      fst (startDebugger "9090" (idle [silent_dlv])) = Done (Error err))
  /\ client (ds (snd (startDebugger "9090" (idle [silent_dlv])))) = None
  /\ exists line,
       In (StdoutLine line)
          [Spawned ["dlv"; "dap"; "--listen"; ":9090"; "--log";
                    "--log-output"; "dap"];
           StdoutLine ("DAP server listening at: 127.0.0.1:9090" ++ nl)]
       /\ strings.HasPrefix line "DAP server listening at" = true.
Proof.
  destruct (startDebugger_dials_only_after_listening_line "9090"
              (idle [silent_dlv])) as [acts1 [_ [_ Hsilent]]].
  destruct (Hsilent eq_refl) as [Herr [_ Hclient]].
  destruct (startDebugger_dials_only_after_listening_line "9090"
              (idle [good_dlv])) as [acts2 [Htrace [Horder _]]].
  split; [exact Herr|]. split; [exact Hclient|].
  apply (Horder
           [Spawned ["dlv"; "dap"; "--listen"; ":9090"; "--log";
                     "--log-output"; "dap"];
            StdoutLine ("DAP server listening at: 127.0.0.1:9090" ++ nl)]
           "localhost:9090"
           [Sent {| dap.Seq := 1; dap.Type_ := "request";
                    dap.Command := "initialize";
                    dap.Args := dap.InitializeRequestArguments "go" "path"
                                  true true true true true "en-us" |}]).
  apply (app_inv_head []). exact (eq_sym Htrace).
Defined.

(** C7 (counterexample). Start, stop and start again on one session
    object: both initialize requests carry sequence number 1. *)
Lemma second_start_reuses_sequence_number_1 :
  let r1 := startDebugger "9090" (idle [good_dlv; good_dlv]) in
  let r2 := stopDebugger (snd r1) in
  let r3 := startDebugger "9090" (snd r2) in
  (exists t1, fst r1 = Done (Result t1))
  /\ fst r2 = Done (Result "Debugger stopped.")
  /\ (exists t3, fst r3 = Done (Result t3))
  /\ wire_seqs (trace (snd r3)) = [1; 1]
  /\ ~ NoDup (wire_seqs (trace (snd r3))).
Proof.
  intros r1 r2 r3.
  assert (Hwire : wire_seqs (trace (snd r3)) = [1; 1])
    by (vm_compute; reflexivity).
  split; [eexists; vm_compute; reflexivity|].
  split; [vm_compute; reflexivity|].
  split; [eexists; vm_compute; reflexivity|].
  split; [exact Hwire|].
  rewrite Hwire. intros Hnodup.
  inversion Hnodup as [|x l Hnotin _]; subst.
  apply Hnotin. left. reflexivity.
Qed.

(** C7 (amended). Sequence numbers are unique within one client, that is
    within one connection, only: every successful start installs a new
    client whose counter begins at 1 again, so that the initialize request
    of the start carries sequence number 1 and the next request of the
    session will carry 2, whatever the session has sent before. *)
Theorem every_start_counts_from_1
  (Port : string) (s s' : State) (text : string) :
  startDebugger Port s = (Done (Result text), s') ->
  exists c,
    client (ds s') = Some c
    /\ seq c = 2
    /\ wire_seqs (trace s') = (wire_seqs (trace s) ++ [1])%list.
Proof.
  intros Hrun.
  destruct (startDebugger_cases Port s) as [acts [Htrace [_ [_ Hok]]]].
  rewrite Hrun in Htrace, Hok. cbn [fst snd] in Htrace, Hok.
  destruct (Hok text eq_refl) as [c [Hc [Hseq Hwire]]].
  exists c. split; [exact Hc|]. split; [exact Hseq|].
  rewrite Htrace, wire_seqs_app, Hwire. reflexivity.
Qed.

Lemma every_start_counts_from_1_witness :
  exists c,
    client (ds (snd (startDebugger "9090" (idle [good_dlv])))) = Some c
    /\ seq c = 2
    /\ wire_seqs (trace (snd (startDebugger "9090" (idle [good_dlv]))))
       = [1].
Proof.
  apply (every_start_counts_from_1 "9090" (idle [good_dlv]) _
           ("Started debugger at: :9090" ++ nl ++ nl
            ++ "Server Capabilities:" ++ nl ++ "{}")).
  reflexivity.
Defined.


(** A start whose [cmd.Start()] fails leaves [ds.cmd] set with a nil
    [Process]; the stop that follows reaches [Process.Kill()] through it. *)
Lemma stop_after_failed_start_panics :
  let failed := snd (startDebugger "9090" (idle [])) in
  cmd (ds failed) <> None
  /\ fst (stopDebugger failed) = Panic nil_dereference.
Proof.
  intros failed. split; [discriminate | reflexivity].
Qed.



(* ===================================================================== *)
(** ** The stack-trace request *)
(* ===================================================================== *)

(** C10. The stackTrace request that [getStackTrace] sends carries
    Levels = 20 when the caller's Levels is 0 and the caller's Levels
    otherwise; ThreadID and StartFrame are passed as given. *)
Theorem getStackTrace_defaults_levels_to_20
  (ThreadID StartFrame Levels : Z) (s : State) (c : DAPClient) :
  client (ds s) = Some c ->
  conn_writable (conn c) = true ->
  exists levels,
    wire (trace (snd (getStackTrace ThreadID StartFrame Levels s)))
    = (wire (trace s)
       ++ [ {| dap.Seq := seq c; dap.Type_ := "request";
               dap.Command := "stackTrace";
               dap.Args := dap.StackTraceArguments ThreadID StartFrame
                             levels |} ])%list
    /\ (Levels = 0 -> levels = 20)
    /\ (Levels <> 0 -> levels = Levels).
Proof.
  intros Hc Hw.
  exists (if Levels =? 0 then 20 else Levels). split.
  - destruct s as [[cm cl] ins lis tr]. simpl in Hc. subst cl.
    destruct c as [[rem w rdb] rd sq]. simpl in Hw. subst w.
    unfold getStackTrace, StackTraceRequest, newRequest, send, forMessages.
    go. cbn -[GoInt.incr receive].
    match goal with
    | |- context [receive ?f ?b ?r] => destruct (receive f b r) as [o rest]
    end.
    cbn -[GoInt.incr]. rewrite wire_app. reflexivity.
  - split.
    + intros ->. reflexivity.
    + intros Hnz. apply Z.eqb_neq in Hnz. rewrite Hnz. reflexivity.
Qed.

Lemma getStackTrace_defaults_levels_to_20_witness :
  wire (trace (snd (getStackTrace 1 0 0 (connected []))))
  = [ {| dap.Seq := 2; dap.Type_ := "request"; dap.Command := "stackTrace";
         dap.Args := dap.StackTraceArguments 1 0 20 |} ]
  /\ wire (trace (snd (getStackTrace 1 0 5 (connected []))))
     = [ {| dap.Seq := 2; dap.Type_ := "request";
            dap.Command := "stackTrace";
            dap.Args := dap.StackTraceArguments 1 0 5 |} ].
Proof.
  split.
  - destruct (getStackTrace_defaults_levels_to_20 1 0 0 (connected [])
                {| conn := {| remote := "localhost:9090";
                              conn_writable := true; readable := [] |};
                   reader := []; seq := 2 |} eq_refl eq_refl)
      as [levels [Hwire [Hzero _]]].
    rewrite Hwire, (Hzero eq_refl). reflexivity.
  - destruct (getStackTrace_defaults_levels_to_20 1 0 5 (connected [])
                {| conn := {| remote := "localhost:9090";
                              conn_writable := true; readable := [] |};
                   reader := []; seq := 2 |} eq_refl eq_refl)
      as [levels [Hwire [_ Hnonzero]]].
    rewrite Hwire, Hnonzero; [reflexivity | discriminate].
Defined.

(* ===================================================================== *)
(** ** Handlers that work on the connection only *)
(* ===================================================================== *)


Lemma wrap_add_l (a b : Z) : GoInt.wrap (GoInt.wrap a + b) = GoInt.wrap (a + b).
Proof.
  unfold GoInt.wrap.
  replace ((a + 2 ^ (GoInt.intSize - 1)) mod 2 ^ GoInt.intSize
           - 2 ^ (GoInt.intSize - 1) + b + 2 ^ (GoInt.intSize - 1))
    with ((a + 2 ^ (GoInt.intSize - 1)) mod 2 ^ GoInt.intSize + b) by lia.
  rewrite Zplus_mod_idemp_l. f_equal. f_equal. lia.
Qed.

Lemma wrap_idempotent (a : Z) : GoInt.wrap (GoInt.wrap a) = GoInt.wrap a.
Proof.
  pose proof (wrap_add_l a 0) as H. rewrite !Z.add_0_r in H. exact H.
Qed.

Lemma nth_seq_0 (n : Z) : GoInt.wrap n = n -> nth_seq n 0 = n.
Proof. intros H. unfold nth_seq. simpl. rewrite Z.add_0_r. exact H. Qed.

Lemma nth_seq_add (n : Z) (i j : nat) :
  nth_seq (nth_seq n i) j = nth_seq n (i + j).
Proof.
  unfold nth_seq. rewrite wrap_add_l, Nat2Z.inj_add. f_equal. lia.
Qed.

Lemma map_seq_from {B} (len start : nat) :
  forall f : nat -> B,
    List.map f (List.seq start len)
    = List.map (fun i => f (start + i)%nat) (List.seq 0 len).
Proof.
  induction start as [|start IH]; intros f; [reflexivity|].
  rewrite <- seq_shift, map_map, IH. reflexivity.
Qed.

Lemma orderly_bind {A B} (m : Go A) (k : A -> Go B) :
  orderly m -> (forall a, orderly (k a)) -> orderly (bind m k).
Proof.
  intros Hm Hk s. unfold bind. specialize (Hm s).
  destruct (m s) as [[a|why|why] s1]; cbn [snd] in *; try exact Hm.
  specialize (Hk a s1).
  destruct Hm as (Hcmd1 & Hins1 & Hlis1 & acts1 & Htr1 & Hq1 & Hcl1).
  destruct Hk as (Hcmd2 & Hins2 & Hlis2 & acts2 & Htr2 & Hq2 & Hcl2).
  split; [congruence|]. split; [congruence|]. split; [congruence|].
  exists (acts1 ++ acts2)%list.
  split; [rewrite Htr2, Htr1, app_assoc; reflexivity|].
  split; [rewrite forallb_app, Hq1, Hq2; reflexivity|].
  destruct (client (ds s)) as [c|].
  - intros Hw Hn.
    destruct (Hcl1 Hw Hn) as [Hs1 [Hnone | (c1 & Hc1 & Hconn & Hseq)]].
    + rewrite Hnone in Hcl2. destruct Hcl2 as [Hnone2 Hw2].
      unfold wire_seqs in *. rewrite wire_app, Hw2, app_nil_r.
      split; [exact Hs1 | left; exact Hnone2].
    + rewrite Hc1 in Hcl2.
      destruct Hcl2 as [Hs2 Hc2].
      * rewrite Hconn. exact Hw.
      * rewrite Hseq. unfold nth_seq. apply wrap_idempotent.
      * unfold wire_seqs in *. rewrite wire_app, map_app, length_app.
        split.
        -- rewrite seq_app, map_app, Hs1, Hs2. f_equal.
           rewrite (map_seq_from (List.length (wire acts2))
                      (0 + List.length (wire acts1)) (nth_seq (seq c))).
           apply map_ext. intros i. cbn [Nat.add].
           rewrite Hseq, nth_seq_add. reflexivity.
        -- destruct Hc2 as [Hnone2 | (c2 & Hc2 & Hconn2 & Hseq2)];
             [left; exact Hnone2 | right].
           exists c2. split; [exact Hc2|]. split; [congruence|].
           rewrite Hseq2, Hseq, nth_seq_add. reflexivity.
  - destruct Hcl1 as [Hnone1 Hw1]. rewrite Hnone1 in Hcl2.
    destruct Hcl2 as [Hnone2 Hw2].
    split; [exact Hnone2|]. rewrite wire_app, Hw1, Hw2. reflexivity.
Qed.

(** A computation that leaves the state as it is. *)
Lemma orderly_same {A} (m : Go A) :
  (forall s, snd (m s) = s) -> orderly m.
Proof.
  intros Hsame s. rewrite Hsame.
  split; [reflexivity|]. split; [reflexivity|]. split; [reflexivity|].
  exists []. split; [rewrite app_nil_r; reflexivity|].
  split; [reflexivity|].
  destruct (client (ds s)) as [c|]; [|split; reflexivity].
  intros _ Hn. split; [reflexivity|]. right. exists c.
  split; [reflexivity|]. split; [reflexivity|].
  simpl. rewrite nth_seq_0; [reflexivity | exact Hn].
Qed.

(** A computation that at most moves the reader of the client on. *)
Lemma orderly_reading {A} (m : Go A) :
  (forall s,
      snd (m s) = s
      \/ exists c rest,
           client (ds s) = Some c
           /\ snd (m s) = with_client s (Some (left_to_read c rest))) ->
  orderly m.
Proof.
  intros Hread s.
  destruct (Hread s) as [Hsame | (c & rest & Hc & Hs)].
  - rewrite Hsame.
    split; [reflexivity|]. split; [reflexivity|]. split; [reflexivity|].
    exists []. split; [rewrite app_nil_r; reflexivity|].
    split; [reflexivity|].
    destruct (client (ds s)) as [c|]; [|split; reflexivity].
    intros _ Hn. split; [reflexivity|]. right. exists c.
    split; [reflexivity|]. split; [reflexivity|].
    simpl. rewrite nth_seq_0; [reflexivity | exact Hn].
  - rewrite Hs, Hc. cbn.
    split; [reflexivity|]. split; [reflexivity|]. split; [reflexivity|].
    exists []. split; [rewrite app_nil_r; reflexivity|].
    split; [reflexivity|].
    intros _ Hn. split; [reflexivity|]. right. eexists.
    split; [reflexivity|]. split; [reflexivity|].
    simpl. rewrite nth_seq_0; [reflexivity | exact Hn].
Qed.

Lemma orderly_ret {A} (a : A) : orderly (ret a).
Proof. apply orderly_same. reflexivity. Qed.

Lemma orderly_panic {A} (why : string) : orderly (@panic A why).
Proof. apply orderly_same. reflexivity. Qed.

Lemma orderly_lift {A} (o : Outcome A) : orderly (lift o).
Proof. apply orderly_same. reflexivity. Qed.

Lemma orderly_get_client : orderly get_client.
Proof. apply orderly_same. reflexivity. Qed.

Lemma orderly_deref : orderly deref.
Proof.
  apply orderly_same. intros s. unfold deref, bind, get_client.
  destruct (client (ds s)); reflexivity.
Qed.

Lemma orderly_Close : orderly Close.
Proof.
  intros s. destruct s as [[cm [c|]] ins lis tr]; cbn.
  - repeat (split; [reflexivity|]). exists [Closed].
    split; [reflexivity|]. split; [reflexivity|].
    intros _ Hn. split; [reflexivity|]. right. exists c.
    split; [reflexivity|]. split; [reflexivity|].
    simpl. rewrite nth_seq_0; [reflexivity | exact Hn].
  - repeat (split; [reflexivity|]). exists [].
    split; [rewrite app_nil_r; reflexivity|]. repeat split; reflexivity.
Qed.

Lemma orderly_forget_client : orderly (set_client None).
Proof.
  intros s. cbn.
  repeat (split; [reflexivity|]). exists [].
  split; [rewrite app_nil_r; reflexivity|]. split; [reflexivity|].
  destruct (client (ds s)) as [c|].
  - intros _ _. split; [reflexivity | left; reflexivity].
  - split; reflexivity.
Qed.

Lemma orderly_ReadMessage : orderly ReadMessage.
Proof.
  apply orderly_reading. intros s.
  destruct s as [[cm [c|]] ins lis tr]; [|left; reflexivity].
  unfold ReadMessage. go.
  destruct (reader c) as [|r rest] eqn:Hrd; [left; reflexivity|].
  right. exists c, rest. split; reflexivity.
Qed.

Lemma orderly_forMessages {A} (failed : string -> A)
  (body : dap.ProtocolMessage -> Outcome (Step A)) :
  orderly (forMessages failed body).
Proof.
  apply orderly_reading. intros s.
  destruct s as [[cm [c|]] ins lis tr]; [|left; reflexivity].
  right. exists c, (snd (receive failed body (reader c))).
  split; [reflexivity|].
  rewrite (forMessages_run failed body
             {| ds := {| cmd := cm; client := Some c |}; installed := ins;
                listener := lis; trace := tr |} c eq_refl).
  reflexivity.
Qed.

(** Building a request and sending it, as every request method does. *)
Lemma orderly_request (command : string)
  (arguments : dap.Request -> dap.Request) :
  (forall request, dap.Seq (arguments request) = dap.Seq request) ->
  orderly (bind (newRequest command)
             (fun request => send (arguments request))).
Proof.
  intros Hseq s. destruct s as [[cm [c|]] ins lis tr].
  - unfold newRequest, send. go.
    destruct (conn_writable (conn c)) eqn:Hw; go.
    + repeat (split; [reflexivity|]). eexists.
      split; [reflexivity|]. split; [reflexivity|].
      intros _ Hn. unfold wire_seqs. cbn [wire List.map List.length List.seq].
      rewrite Hseq. cbn [dap.Seq].
      split; [rewrite nth_seq_0 by exact Hn; reflexivity|].
      right. eexists. split; [reflexivity|]. split; [reflexivity|].
      cbn [seq]. unfold GoInt.incr, nth_seq. reflexivity.
    + repeat (split; [reflexivity|]). exists [].
      split; [rewrite app_nil_r; reflexivity|]. split; [reflexivity|].
      intros Hw' _. discriminate Hw'.
  - cbn. repeat (split; [reflexivity|]). exists [].
    split; [rewrite app_nil_r; reflexivity|]. repeat split; reflexivity.
Qed.

(** One step of the proof that a handler is orderly, by its shape. *)
Ltac orderly_step :=
  lazymatch goal with
  | |- orderly (ret _) => apply orderly_ret
  | |- orderly (panic _) => apply orderly_panic
  | |- orderly (lift _) => apply orderly_lift
  | |- orderly get_client => apply orderly_get_client
  | |- orderly deref => apply orderly_deref
  | |- orderly Close => apply orderly_Close
  | |- orderly (set_client None) => apply orderly_forget_client
  | |- orderly ReadMessage => apply orderly_ReadMessage
  | |- orderly (forMessages _ _) => apply orderly_forMessages
  | |- orderly (bind (newRequest _) _) =>
      apply orderly_request; intros; reflexivity
  | |- orderly (bind _ _) => apply orderly_bind; [|intros ?]
  | |- orderly (match ?x with _ => _ end) => destruct x
  | |- orderly (let _ := _ in _) => cbv zeta
  end.

Lemma orderly_scopesText (scopes : list dap.Scope) :
  forall result, orderly (scopesText scopes result).
Proof.
  induction scopes as [|scope scopes IH]; intros result.
  - apply orderly_ret.
  - cbn [scopesText]. unfold VariablesRequest.
    apply orderly_bind; [|intros text; apply IH].
    repeat orderly_step.
Qed.

Lemma orderly_handler (h : Handler) : orderly (handler h).
Proof.
  destruct h as [Path|Path|[q|op tid| | | | | | | | |]];
    try destruct q; try destruct op;
    cbn [handler guarded query stepper];
    unfold debugProgram, execProgram,
      listThreads, getScopes, getVariables, setVariable,
      getLoadedSources, getModules, disassembleCode, getExceptionInfo,
      setBreakpoints, continueExecution, nextStep, stepIn, stepOut,
      setFunctionBreakpoints, configurationDone, pauseExecution,
      getStackTrace, evaluateExpression, restartDebugger, terminateDebugger,
      attachDebugger, disconnect, requireClient, readOneResponse,
      readAndValidateResponse, waitForStop,
      LaunchRequest, ThreadsRequest, ScopesRequest, VariablesRequest,
      SetVariableRequest, LoadedSourcesRequest, ModulesRequest,
      DisassembleRequest, ExceptionInfoRequest, SetBreakpointsRequest,
      ContinueRequest, NextRequest, StepInRequest, StepOutRequest,
      SetFunctionBreakpointsRequest, ConfigurationDoneRequest, PauseRequest,
      StackTraceRequest, EvaluateRequest, RestartRequest, TerminateRequest,
      AttachRequest, DisconnectRequest;
    repeat first [ apply orderly_scopesText | orderly_step ].
Qed.

Lemma orderly_handlers (hs : list Handler) : orderly (handlers hs).
Proof.
  induction hs as [|h hs IH]; cbn [handlers].
  - apply orderly_ret.
  - apply orderly_bind; [apply orderly_handler|]. intros r.
    apply orderly_bind; [exact IH|]. intros rs. apply orderly_ret.
Qed.

(** X1. A series of handler calls other than start and stop leaves the
    subprocess handle and the outside world as they are: it spawns
    nothing, dials nothing, kills nothing; all it does to the world is
    write requests and, in disconnect, close the connection. *)
Theorem handlers_leave_the_process_alone (hs : list Handler) (s : State) :
  cmd (ds (snd (handlers hs s))) = cmd (ds s)
  /\ installed (snd (handlers hs s)) = installed s
  /\ listener (snd (handlers hs s)) = listener s
  /\ exists acts,
       trace (snd (handlers hs s)) = (trace s ++ acts)%list
       /\ forall a, In a acts -> (exists request, a = Sent request) \/ a = Closed.
Proof.
  destruct (orderly_handlers hs s)
    as (Hcmd & Hins & Hlis & acts & Htr & Hquiet & _).
  split; [exact Hcmd|]. split; [exact Hins|]. split; [exact Hlis|].
  exists acts. split; [exact Htr|].
  intros a Hin. rewrite forallb_forall in Hquiet.
  specialize (Hquiet a Hin).
  destruct a; try discriminate Hquiet; [left; eexists; reflexivity | right; reflexivity].
Qed.



(* ===================================================================== *)
(** ** Handlers without a session or on a broken connection *)
(* ===================================================================== *)

(** X3. Each of the 22 handlers that test [ds.client == nil] answers, when
    no client is connected, the error "debugger not started"; it sends
    nothing, reads nothing and leaves the state as it is. *)
Theorem guarded_handlers_refuse_without_client (t : Guarded) (s : State) :
  client (ds s) = None ->
  guarded t s = (Done (Error "debugger not started"), s).
Proof.
  exact (guarded_without_client t s).
Qed.

Lemma guarded_handlers_refuse_without_client_witness :
  guarded (ToolEvaluate "greeting" 1000 "") (idle [good_dlv])
  = (Done (Error "debugger not started"), idle [good_dlv]).
Proof.
  apply (guarded_handlers_refuse_without_client
           (ToolEvaluate "greeting" 1000 "") (idle [good_dlv])).
  reflexivity.
Defined.






(* ===================================================================== *)
(** ** Stopping a running debugger; disconnecting *)
(* ===================================================================== *)

(** X6. When a debugger process is running, stop closes the connection if
    there is one, then kills the process and waits for it.  A kill that
    succeeds, or that fails only because the process has already finished,
    gives "Debugger stopped." and clears both handles. *)
Theorem stopDebugger_kills_and_clears_handles (s : State) (c : Cmd) :
  cmd (ds s) = Some c ->
  Process c = true ->
  (forall e, kill_error (program c) = Some e ->
             strings.Contains e "process already finished" = true) ->
  stopDebugger s =
    (Done (Result "Debugger stopped."),
     {| ds := {| cmd := None; client := None |};
        installed := installed s; listener := listener s;
        trace := trace s
                 ++ match client (ds s) with
                    | Some _ => [Closed]
                    | None => []
                    end
                 ++ [Killed; Waited] |}).
Proof.
  intros Hcmd Hproc Hkill.
  destruct s as [[cm cl] ins lis tr]. simpl in Hcmd. subst cm.
  unfold stopDebugger, Close, Process_Kill, Cmd_Wait.
  destruct cl as [c0|]; go; rewrite Hproc; go;
    (destruct (kill_error (program c)) as [e|] eqn:He;
     [ rewrite (Hkill e eq_refl); cbn [negb]; go | go ]);
    rewrite <- ?app_assoc; reflexivity.
Qed.

Lemma stopDebugger_kills_and_clears_handles_witness :
  let gone := {| cmd_Args := ["dlv"; "dap"]; program := silent_dlv;
                 Process := true |} in
  let s := {| ds := {| cmd := Some gone; client := None |};
              installed := []; listener := Some silent_dlv; trace := [] |} in
  stopDebugger s
  = (Done (Result "Debugger stopped."),
     {| ds := {| cmd := None; client := None |}; installed := [];
        listener := Some silent_dlv; trace := [Killed; Waited] |}).
Proof.
  intros gone s.
  apply (stopDebugger_kills_and_clears_handles s gone eq_refl eq_refl).
  intros e He. injection He as <-. reflexivity.
Defined.

(** X7. Any other failure of the kill is returned as the error of stop.
    By then the connection is closed and the client handle cleared, while
    the subprocess handle is kept and the process is not waited for. *)
Theorem stopDebugger_returns_other_kill_errors
  (s : State) (c : Cmd) (e : string) :
  cmd (ds s) = Some c ->
  Process c = true ->
  kill_error (program c) = Some e ->
  strings.Contains e "process already finished" = false ->
  stopDebugger s =
    (Done (Error e),
     {| ds := {| cmd := Some c; client := None |};
        installed := installed s; listener := listener s;
        trace := trace s
                 ++ match client (ds s) with
                    | Some _ => [Closed]
                    | None => []
                    end
                 ++ [Killed] |}).
Proof.
  intros Hcmd Hproc Hkill Hother.
  destruct s as [[cm cl] ins lis tr]. simpl in Hcmd. subst cm.
  unfold stopDebugger, Close, Process_Kill, Cmd_Wait.
  destruct cl as [c0|]; go; rewrite Hproc; go; rewrite Hkill, Hother;
    cbn [negb]; go; rewrite <- ?app_assoc; reflexivity.
Qed.

Lemma stopDebugger_returns_other_kill_errors_witness :
  let stubborn :=
    {| cmd_Args := ["dlv"; "dap"];
       program := {| pipe_error := None; start_error := None;
                     stdout_lines := []; stdout_error := "EOF";
                     accepts := true; writable := true; messages := [];
                     kill_error := Some "operation not permitted" |};
       Process := true |} in
  let s := connected [] in
  let s := {| ds := {| cmd := Some stubborn; client := client (ds s) |};
              installed := []; listener := None; trace := [] |} in
  fst (stopDebugger s) = Done (Error "operation not permitted")
  /\ ds (snd (stopDebugger s)) = {| cmd := Some stubborn; client := None |}
  /\ trace (snd (stopDebugger s)) = [Closed; Killed].
Proof.
  intros stubborn s0 s.
  rewrite (stopDebugger_returns_other_kill_errors s stubborn
             "operation not permitted" eq_refl eq_refl eq_refl eq_refl).
  split; [reflexivity|]. split; reflexivity.
Defined.

(** X8. Disconnect waits for the Response to its request.  On a successful
    Response it closes the connection and clears the client handle, so
    that every guarded handler called next answers "debugger not started";
    on a failed Response it returns the error and stays connected.  In
    both cases the subprocess handle is left for stop. *)
Theorem disconnect_forgets_the_client_on_success
  (TerminateDebuggee : bool) (s : State) (c : DAPClient)
  (events : list dap.ProtocolMessage) (msg : dap.ProtocolMessage)
  (resp : dap.Response) (rest : list ReadResult) :
  client (ds s) = Some c ->
  conn_writable (conn c) = true ->
  reader c = (List.map Recv events ++ Recv msg :: rest)%list ->
  (forall ev, In ev events -> dap.asResponseMessage ev = None) ->
  dap.asResponseMessage msg = Some resp ->
  let request := {| dap.Seq := seq c; dap.Type_ := "request";
                    dap.Command := "disconnect";
                    dap.Args := dap.DisconnectArguments TerminateDebuggee |} in
  let s' := snd (disconnect TerminateDebuggee s) in
  cmd (ds s') = cmd (ds s)
  /\ if dap.Success resp
     then fst (disconnect TerminateDebuggee s)
          = Done (Result "Disconnected from debugger")
          /\ client (ds s') = None
          /\ trace s' = (trace s ++ [Sent request; Closed])%list
          /\ forall t, guarded t s' = (Done (Error "debugger not started"), s')
     else fst (disconnect TerminateDebuggee s)
          = Done (Error ("unable to disconnect: " ++ dap.Message resp))
          /\ unread s' = rest
          /\ trace s' = (trace s ++ [Sent request])%list.
Proof.
  intros Hc Hw Hrd Hev Hresp request s'. subst s'.
  destruct s as [[cm cl] ins lis tr]. simpl in Hc. subst cl.
  unfold disconnect, DisconnectRequest, newRequest, send, requireClient.
  go. rewrite Hw. go.
  erewrite readAndValidateResponse_run by
      (try exact Hev; try exact Hresp; try exact Hrd; reflexivity).
  unfold Close. destruct (dap.Success resp); go; cbn.
  - split; [reflexivity|]. split; [reflexivity|]. split; [reflexivity|].
    split; [rewrite <- app_assoc; reflexivity|].
    intros t. apply guarded_without_client. reflexivity.
  - split; [reflexivity|]. split; [reflexivity|]. split; reflexivity.
Qed.

Lemma disconnect_forgets_the_client_on_success_witness :
  let s := connected [Recv (dap.OtherEvent "*dap.OutputEvent");
                      Recv (ok_response "*dap.DisconnectResponse" 2)] in
  fst (disconnect true s) = Done (Result "Disconnected from debugger")
  /\ client (ds (snd (disconnect true s))) = None
  /\ cmd (ds (snd (disconnect true s))) = cmd (ds s)
  /\ fst (continueExecution 1 (snd (disconnect true s)))
     = Done (Error "debugger not started").
Proof.
  intros s.
  destruct (disconnect_forgets_the_client_on_success true s
              {| conn := {| remote := "localhost:9090"; conn_writable := true;
                            readable :=
                              [Recv (dap.OtherEvent "*dap.OutputEvent");
                               Recv (ok_response "*dap.DisconnectResponse"
                                       2)] |};
                 reader := [Recv (dap.OtherEvent "*dap.OutputEvent");
                            Recv (ok_response "*dap.DisconnectResponse" 2)];
                 seq := 2 |}
              [dap.OtherEvent "*dap.OutputEvent"]
              (ok_response "*dap.DisconnectResponse" 2)
              {| dap.RequestSeq := 2; dap.Success := true;
                 dap.Message := "" |}
              [] eq_refl eq_refl eq_refl)
    as [Hcmd [Hres [Hclient [_ Hnext]]]].
  - intros ev [Hev|[]]. subst ev. reflexivity.
  - reflexivity.
  - split; [exact Hres|]. split; [exact Hclient|]. split; [exact Hcmd|].
    change (continueExecution 1) with (guarded (ToolStepper ByContinue 1)).
    rewrite Hnext. reflexivity.
Defined.

(* ===================================================================== *)
(** ** How the waits end otherwise *)
(* ===================================================================== *)

Lemma waitForStop_failed_response (unable banner terminated : string)
  (s : State) (c : DAPClient) (before : list dap.ProtocolMessage)
  (msg : dap.ProtocolMessage) (resp : dap.Response)
  (rest : list ReadResult) :
  client (ds s) = Some c ->
  (forall m, In m before -> read_past m = true) ->
  reader c = (List.map Recv before ++ Recv msg :: rest)%list ->
  dap.asResponseMessage msg = Some resp ->
  dap.Success resp = false ->
  waitForStop unable banner terminated s =
    (Done (Error (unable ++ ": " ++ dap.Message resp)),
     with_client s (Some (left_to_read c rest))).
Proof.
  intros Hc Hpast Hrd Hresp Hfail. unfold waitForStop.
  rewrite (forMessages_run _ _ s c Hc), Hrd, receive_skips.
  - cbn [receive]. rewrite Hresp, Hfail. reflexivity.
  - intros m Hin. specialize (Hpast m Hin). unfold read_past in Hpast.
    destruct (dap.asResponseMessage m) as [r|].
    + rewrite Hpast. reflexivity.
    + destruct m; try reflexivity; discriminate.
Qed.

Lemma waitForStop_read_error (unable banner terminated : string)
  (s : State) (c : DAPClient) (before : list dap.ProtocolMessage)
  (tail : list ReadResult) (err : string) (rest : list ReadResult) :
  client (ds s) = Some c ->
  (forall m, In m before -> read_past m = true) ->
  reader c = (List.map Recv before ++ tail)%list ->
  (tail = ReadError err :: rest \/ (tail = [] /\ err = "EOF" /\ rest = [])) ->
  waitForStop unable banner terminated s =
    (Done (Error err), with_client s (Some (left_to_read c rest))).
Proof.
  intros Hc Hpast Hrd Htail. unfold waitForStop.
  rewrite (forMessages_run _ _ s c Hc), Hrd, receive_skips.
  - destruct Htail as [-> | (-> & -> & ->)]; reflexivity.
  - intros m Hin. specialize (Hpast m Hin). unfold read_past in Hpast.
    destruct (dap.asResponseMessage m) as [r|].
    + rewrite Hpast. reflexivity.
    + destruct m; try reflexivity; discriminate.
Qed.

(** X9. The waits of continue, next, step-in and step-out also end without
    a stop: a Response that reports failure ends the wait with the
    handler's "unable to ..." prefix and the message of the Response; a
    read that fails ends it with the read error; and when the stream ends
    before any stopped or terminated event the handler fails with "EOF". *)
Theorem steppers_fail_on_failed_response_or_read_error
  (op : Stepper) (ThreadID : Z) (s : State) (c : DAPClient)
  (before : list dap.ProtocolMessage) :
  client (ds s) = Some c ->
  conn_writable (conn c) = true ->
  (forall m, In m before -> read_past m = true) ->
  (forall msg resp rest,
      reader c = (List.map Recv before ++ Recv msg :: rest)%list ->
      dap.asResponseMessage msg = Some resp ->
      dap.Success resp = false ->
      fst (stepper op ThreadID s)
      = Done (Error (unable_text op ++ ": " ++ dap.Message resp))
      /\ unread (snd (stepper op ThreadID s)) = rest)
  /\ (forall err rest,
         reader c = (List.map Recv before ++ ReadError err :: rest)%list ->
         fst (stepper op ThreadID s) = Done (Error err)
         /\ unread (snd (stepper op ThreadID s)) = rest)
  /\ (reader c = List.map Recv before ->
      fst (stepper op ThreadID s) = Done (Error "EOF")
      /\ unread (snd (stepper op ThreadID s)) = []).
Proof.
  intros Hc Hw Hpast.
  assert (Hrun : exists request,
             stepper op ThreadID s
             = waitForStop (unable_text op) (stopped_banner op ++ nl)
                 (terminated_text op)
                 (with_actions
                    (with_client s
                       (Some {| conn := conn c; reader := reader c;
                                seq := GoInt.incr (seq c) |}))
                    [Sent request])).
  { destruct op;
      [ destruct (guarded_request (CallContinue ThreadID)
                    (waitForStop "unable to continue"
                       ("Continued execution..." ++ nl)
                       "Continued execution to program termination")
                    s c Hc Hw) as [request [Hrun _]]
      | destruct (guarded_request (CallNext ThreadID)
                    (waitForStop "unable to step to next line"
                       ("Stepped to next line..." ++ nl)
                       "Stepped to program termination")
                    s c Hc Hw) as [request [Hrun _]]
      | destruct (guarded_request (CallStepIn ThreadID)
                    (waitForStop "unable to step into function"
                       ("Stepped into function..." ++ nl)
                       "Stepped to program termination")
                    s c Hc Hw) as [request [Hrun _]]
      | destruct (guarded_request (CallStepOut ThreadID)
                    (waitForStop "unable to step out of function"
                       ("Stepped out of function..." ++ nl)
                       "Stepped to program termination")
                    s c Hc Hw) as [request [Hrun _]] ];
      exists request; exact Hrun. }
  destruct Hrun as [request Hrun]. rewrite Hrun.
  split; [|split].
  - intros msg resp rest Hrd Hresp Hfail.
    erewrite waitForStop_failed_response by
        (try exact Hpast; try exact Hresp; try exact Hfail; try exact Hrd;
         reflexivity).
    split; reflexivity.
  - intros err rest Hrd.
    erewrite waitForStop_read_error by
        (try exact Hpast; try exact Hrd; try (left; reflexivity);
         reflexivity).
    split; reflexivity.
  - intros Hrd.
    erewrite (waitForStop_read_error _ _ _ _ _ before [] "EOF" []) by
        (try exact Hpast; try (rewrite app_nil_r; exact Hrd);
         try (right; repeat split; reflexivity); reflexivity).
    split; reflexivity.
Qed.

Lemma steppers_fail_on_failed_response_or_read_error_witness :
  let refused := dap.ErrorResponse {| dap.RequestSeq := 2;
                                      dap.Success := false;
                                      dap.Message := "thread not found" |} in
  fst (nextStep 7 (connected [Recv (dap.OtherEvent "*dap.OutputEvent");
                              Recv refused]))
  = Done (Error "unable to step to next line: thread not found")
  /\ fst (nextStep 7 (connected [Recv (dap.OtherEvent "*dap.OutputEvent")]))
     = Done (Error "EOF").
Proof.
  intros refused. split.
  - destruct (steppers_fail_on_failed_response_or_read_error ByNext 7
                (connected [Recv (dap.OtherEvent "*dap.OutputEvent");
                            Recv refused])
                {| conn := {| remote := "localhost:9090";
                              conn_writable := true;
                              readable :=
                                [Recv (dap.OtherEvent "*dap.OutputEvent");
                                 Recv refused] |};
                   reader := [Recv (dap.OtherEvent "*dap.OutputEvent");
                              Recv refused];
                   seq := 2 |}
                [dap.OtherEvent "*dap.OutputEvent"] eq_refl eq_refl)
      as [Hfail _].
    + intros m [Hm|[]]. subst m. reflexivity.
    + apply (Hfail refused
               {| dap.RequestSeq := 2; dap.Success := false;
                  dap.Message := "thread not found" |} []);
        reflexivity.
  - destruct (steppers_fail_on_failed_response_or_read_error ByNext 7
                (connected [Recv (dap.OtherEvent "*dap.OutputEvent")])
                {| conn := {| remote := "localhost:9090";
                              conn_writable := true;
                              readable :=
                                [Recv (dap.OtherEvent "*dap.OutputEvent")] |};
                   reader := [Recv (dap.OtherEvent "*dap.OutputEvent")];
                   seq := 2 |}
                [dap.OtherEvent "*dap.OutputEvent"] eq_refl eq_refl)
      as [_ [_ Heof]].
    + intros m [Hm|[]]. subst m. reflexivity.
    + apply Heof. reflexivity.
Defined.

Lemma receive_skips_events {A} (failed : string -> A)
  (body : dap.ProtocolMessage -> Outcome (Step A))
  (events : list dap.ProtocolMessage) (rest : list ReadResult) :
  (forall ev, dap.isEventMessage ev = true -> body ev = Done Continue) ->
  (forall ev, In ev events -> dap.isEventMessage ev = true) ->
  receive failed body (List.map Recv events ++ rest)%list
  = receive failed body rest.
Proof.
  intros Hbody Hev. apply receive_skips.
  intros ev Hin. apply Hbody, Hev, Hin.
Qed.

(** X10. [getStackTrace] reads past any number of events and decides on
    the first other message.  A StackTraceResponse gives the formatted
    trace, or "unable to get stack trace: ..." when it reports failure; any
    other Response gives that same error when it reports failure and
    "received generic response instead of StackTraceResponse" when it
    reports success; a request of the adapter gives "unexpected response
    type".  What follows the deciding message stays unread. *)
Theorem getStackTrace_decides_on_first_non_event
  (ThreadID StartFrame Levels : Z) (s : State) (c : DAPClient)
  (events : list dap.ProtocolMessage) (rest : list ReadResult) :
  client (ds s) = Some c ->
  conn_writable (conn c) = true ->
  (forall ev, In ev events -> dap.isEventMessage ev = true) ->
  (forall resp frames total,
      reader c = (List.map Recv events
                  ++ Recv (dap.StackTraceResponse resp frames total)
                       :: rest)%list ->
      fst (getStackTrace ThreadID StartFrame Levels s)
      = Done (if dap.Success resp
              then Result ("Stack trace for thread " ++ GoInt.Itoa ThreadID
                           ++ ":" ++ nl ++ framesText 0 frames ++ nl
                           ++ "Total frames: " ++ GoInt.Itoa total)
              else Error ("unable to get stack trace: " ++ dap.Message resp))
      /\ unread (snd (getStackTrace ThreadID StartFrame Levels s)) = rest)
  /\ (forall msg resp,
         reader c = (List.map Recv events ++ Recv msg :: rest)%list ->
         (forall r frames total,
             msg <> dap.StackTraceResponse r frames total) ->
         dap.asResponseMessage msg = Some resp ->
         fst (getStackTrace ThreadID StartFrame Levels s)
         = Done (Error
                   (if dap.Success resp
                    then "received generic response instead of StackTraceResponse"
                    else "unable to get stack trace: " ++ dap.Message resp))
         /\ unread (snd (getStackTrace ThreadID StartFrame Levels s)) = rest)
  /\ (forall goType,
         reader c = (List.map Recv events
                     ++ Recv (dap.AdapterRequest goType) :: rest)%list ->
         fst (getStackTrace ThreadID StartFrame Levels s)
         = Done (Error ("unexpected response type: " ++ goType))
         /\ unread (snd (getStackTrace ThreadID StartFrame Levels s)) = rest).
Proof.
  intros Hc Hw Hev.
  unfold getStackTrace. cbv zeta.
  match goal with
  | |- context [forMessages ?f ?b] => set (body := b)
  end.
  destruct (guarded_request
              (CallStackTrace ThreadID StartFrame
                 (if Levels =? 0 then 20 else Levels))
              (forMessages Error body) s c Hc Hw) as [request [Hrun _]].
  cbn [call] in Hrun. rewrite Hrun. clear Hrun.
  assert (Hskip : forall ev, dap.isEventMessage ev = true ->
                             body ev = Done Continue).
  { intros ev H. destruct ev; try discriminate H; reflexivity. }
  split; [|split].
  - intros resp frames total Hrd.
    erewrite forMessages_run by reflexivity. cbn [reader fst snd].
    rewrite Hrd, (receive_skips_events _ _ _ _ Hskip Hev).
    cbn [receive body]. subst body. cbn beta iota.
    destruct (dap.Success resp); split; reflexivity.
  - intros msg resp Hrd Hnot Hresp.
    erewrite forMessages_run by reflexivity. cbn [reader fst snd].
    rewrite Hrd, (receive_skips_events _ _ _ _ Hskip Hev).
    cbn [receive]. subst body.
    destruct msg; try discriminate Hresp;
      try (exfalso; eapply Hnot; reflexivity);
      cbn in Hresp; injection Hresp as ->; cbn;
      destruct (dap.Success resp); split; reflexivity.
  - intros goType Hrd.
    erewrite forMessages_run by reflexivity. cbn [reader fst snd].
    rewrite Hrd, (receive_skips_events _ _ _ _ Hskip Hev).
    split; reflexivity.
Qed.

Lemma getStackTrace_decides_on_first_non_event_witness :
  let frame := {| dap.frame_Id := 1000; dap.frame_Name := "main.main";
                  dap.frame_Source := Some {| dap.Path := "/src/main.go" |};
                  dap.frame_Line := 7; dap.frame_Column := 0;
                  dap.frame_PresentationHint := "" |} in
  let answer := dap.StackTraceResponse
                  {| dap.RequestSeq := 2; dap.Success := true;
                     dap.Message := "" |} [frame] 1 in
  fst (getStackTrace 1 0 0
         (connected [Recv (dap.OtherEvent "*dap.OutputEvent");
                     Recv (dap.StoppedEvent
                             {| dap.Reason := "step"; dap.ThreadId := 1;
                                dap.HitBreakpointIds := [] |});
                     Recv answer]))
  = Done (Result ("Stack trace for thread 1:" ++ nl ++ nl
                  ++ "#0 (Frame ID: 1000) main.main" ++ nl
                  ++ "   at /src/main.go:7" ++ nl ++ nl
                  ++ "Total frames: 1")).
Proof.
  intros frame answer.
  pose (inbound := [Recv (dap.OtherEvent "*dap.OutputEvent");
                    Recv (dap.StoppedEvent
                            {| dap.Reason := "step"; dap.ThreadId := 1;
                               dap.HitBreakpointIds := [] |});
                    Recv answer]).
  destruct (getStackTrace_decides_on_first_non_event 1 0 0
              (connected inbound)
              {| conn := {| remote := "localhost:9090"; conn_writable := true;
                            readable := inbound |};
                 reader := inbound; seq := 2 |}
              [dap.OtherEvent "*dap.OutputEvent";
               dap.StoppedEvent {| dap.Reason := "step"; dap.ThreadId := 1;
                                   dap.HitBreakpointIds := [] |}]
              [] eq_refl eq_refl) as [Hanswer _].
  - intros ev [Hev|[Hev|[]]]; subst ev; reflexivity.
  - destruct (Hanswer {| dap.RequestSeq := 2; dap.Success := true;
                         dap.Message := "" |} [frame] 1 eq_refl)
      as [Hres _].
    exact Hres.
Defined.

(** X11. [evaluateExpression] sends the evaluate request with the context
    "repl" when the caller gives none, reads past any number of events and
    decides on the first other message.  An EvaluateResponse gives the
    result, followed by its type in parentheses when it has one, or
    "unable to evaluate expression: ..." when it reports failure; every
    other message, other Responses included, gives "unexpected response
    type" with the Go type of the message. *)
Theorem evaluateExpression_decides_on_first_non_event
  (Expression : string) (FrameID : Z) (Context : string) (s : State)
  (c : DAPClient) (events : list dap.ProtocolMessage)
  (rest : list ReadResult) :
  client (ds s) = Some c ->
  conn_writable (conn c) = true ->
  (forall ev, In ev events -> dap.isEventMessage ev = true) ->
  wire (trace (snd (evaluateExpression Expression FrameID Context s)))
  = (wire (trace s)
     ++ [ {| dap.Seq := seq c; dap.Type_ := "request";
             dap.Command := "evaluate";
             dap.Args := dap.EvaluateArguments Expression FrameID
                           (if (Context =? "")%string then "repl"
                            else Context) |} ])%list
  /\ (forall resp value type,
         reader c = (List.map Recv events
                     ++ Recv (dap.EvaluateResponse resp value type)
                          :: rest)%list ->
         fst (evaluateExpression Expression FrameID Context s)
         = Done (if dap.Success resp
                 then Result (if (type =? "")%string then value
                              else value ++ " (type: " ++ type ++ ")")
                 else Error ("unable to evaluate expression: "
                             ++ dap.Message resp))
         /\ unread (snd (evaluateExpression Expression FrameID Context s))
            = rest)
  /\ (forall msg,
         reader c = (List.map Recv events ++ Recv msg :: rest)%list ->
         dap.isEventMessage msg = false ->
         (forall r value type, msg <> dap.EvaluateResponse r value type) ->
         fst (evaluateExpression Expression FrameID Context s)
         = Done (Error ("unexpected response type: " ++ dap.typeName msg))
         /\ unread (snd (evaluateExpression Expression FrameID Context s))
            = rest).
Proof.
  intros Hc Hw Hev.
  destruct s as [[cm cl] ins lis tr]. simpl in Hc. subst cl.
  destruct c as [[rem w rdb] rd sq]. simpl in Hw. subst w.
  unfold evaluateExpression, EvaluateRequest, newRequest, send, requireClient.
  go. cbn [conn_writable]. go. cbv zeta.
  match goal with
  | |- context [forMessages ?f ?b] => set (body := b)
  end.
  assert (Hskip : forall ev, dap.isEventMessage ev = true ->
                             body ev = Done Continue).
  { intros ev H. destruct ev; try discriminate H; reflexivity. }
  split; [|split].
  - erewrite forMessages_run by reflexivity.
    cbn -[GoInt.incr receive]. rewrite wire_app. reflexivity.
  - intros resp value type Hrd. cbn [reader] in Hrd.
    erewrite forMessages_run by reflexivity. cbn [reader fst snd].
    rewrite Hrd, (receive_skips_events _ _ _ _ Hskip Hev).
    cbn [receive body]. subst body. cbn beta iota.
    destruct (dap.Success resp); [|split; reflexivity].
    destruct (type =? "")%string; split; reflexivity.
  - intros msg Hrd Hnoev Hnot. cbn [reader] in Hrd.
    erewrite forMessages_run by reflexivity. cbn [reader fst snd].
    rewrite Hrd, (receive_skips_events _ _ _ _ Hskip Hev).
    cbn [receive]. subst body.
    destruct msg; try discriminate Hnoev;
      try (exfalso; eapply Hnot; reflexivity); split; reflexivity.
Qed.

Lemma evaluateExpression_decides_on_first_non_event_witness :
  let answer := dap.EvaluateResponse
                  {| dap.RequestSeq := 2; dap.Success := true;
                     dap.Message := "" |} "hello" "string" in
  let refusal := dap.ErrorResponse
                   {| dap.RequestSeq := 2; dap.Success := false;
                      dap.Message := "could not find symbol" |} in
  fst (evaluateExpression "greeting" 1000 ""
         (connected [Recv (dap.OtherEvent "*dap.OutputEvent"); Recv answer]))
  = Done (Result "hello (type: string)")
  /\ fst (evaluateExpression "greeting" 1000 "" (connected [Recv refusal]))
     = Done (Error "unexpected response type: *dap.ErrorResponse").
Proof.
  intros answer refusal. split.
  - destruct (evaluateExpression_decides_on_first_non_event
                "greeting" 1000 ""
                (connected [Recv (dap.OtherEvent "*dap.OutputEvent");
                            Recv answer])
                {| conn := {| remote := "localhost:9090";
                              conn_writable := true;
                              readable :=
                                [Recv (dap.OtherEvent "*dap.OutputEvent");
                                 Recv answer] |};
                   reader := [Recv (dap.OtherEvent "*dap.OutputEvent");
                              Recv answer];
                   seq := 2 |}
                [dap.OtherEvent "*dap.OutputEvent"] [] eq_refl eq_refl)
      as [_ [Hanswer _]].
    + intros ev [Hev|[]]. subst ev. reflexivity.
    + destruct (Hanswer {| dap.RequestSeq := 2; dap.Success := true;
                           dap.Message := "" |} "hello" "string" eq_refl)
        as [Hres _].
      exact Hres.
  - destruct (evaluateExpression_decides_on_first_non_event
                "greeting" 1000 "" (connected [Recv refusal])
                {| conn := {| remote := "localhost:9090";
                              conn_writable := true;
                              readable := [Recv refusal] |};
                   reader := [Recv refusal]; seq := 2 |}
                [] [] eq_refl eq_refl) as [_ [_ Hother]].
    + intros ev [].
    + destruct (Hother refusal eq_refl eq_refl) as [Hres _].
      * intros r value type H. discriminate H.
      * exact Hres.
Defined.

(* ===================================================================== *)
(** ** The requests of getScopes *)
(* ===================================================================== *)




(* ===================================================================== *)
(** ** The anatomy of a start *)
(* ===================================================================== *)

Lemma Forall_lines (P : Action -> Prop) (lines : list string) :
  (forall line, P (StdoutLine line)) -> Forall P (List.map StdoutLine lines).
Proof.
  intros H. induction lines as [|l lines IH]; constructor; [apply H | exact IH].
Qed.

Lemma tears_down_lines (lines : list string) (acts : list Action) :
  existsb tears_down (List.map StdoutLine lines ++ acts)
  = existsb tears_down acts.
Proof.
  induction lines as [|l lines IH]; [reflexivity | exact IH].
Qed.

Lemma tears_down_only_lines (lines : list string) :
  existsb tears_down (List.map StdoutLine lines) = false.
Proof.
  induction lines as [|l lines IH]; [reflexivity | exact IH].
Qed.


(** Simplifying a run of [startDebugger] on a process given by its fields. *)
Ltac go_start :=
  repeat (go; cbv beta delta [newDAPClientFromConn];
          cbn [installed program pipe_error start_error stdout_lines
               stdout_error accepts writable messages cmd_Args not_installed
               conn_writable readable newDAPClientFromConn]).

(** The five parts of [startDebugger_anatomy] in one branch of the run. *)
Ltac anatomy_leaf :=
  go_start; cbn [fst snd trace ds cmd];
  eexists;
  repeat match goal with |- _ /\ _ => split end;
  [ first [ symmetry; apply app_nil_r
          | repeat rewrite <- app_assoc; reflexivity ]
  | eexists; split; [reflexivity | split; reflexivity]
  | cbn [existsb tears_down app orb]; rewrite ?tears_down_lines;
    first [reflexivity | apply tears_down_only_lines]
  | repeat first [ apply Forall_nil
                 | apply Forall_cons; [first [reflexivity | exact I]|]
                 | apply Forall_app; split
                 | apply Forall_lines; intros; exact I ]
  | split;
    [ intros [text Hres];
      first [ discriminate Hres
            | repeat (split; [reflexivity|]); do 3 eexists; reflexivity ]
    | intros (Hpipe & Hstart & Hlisten & Hacc & Hwr & resp & caps & more
              & Hmsgs);
      first [ discriminate Hpipe | discriminate Hstart | discriminate Hlisten
            | discriminate Hacc | discriminate Hwr | discriminate Hmsgs
            | eexists; reflexivity ] ] ].

(** Every run of [startDebugger] once more: the subprocess handle it
    leaves, the actions it takes and does not take, the addresses it uses,
    and when it succeeds. *)
Lemma startDebugger_anatomy (Port : string) (s : State) :
  let port := if negb (strings.HasPrefix Port ":") then ":" ++ Port
              else Port in
  exists acts,
    trace (snd (startDebugger Port s)) = (trace s ++ acts)%list
    /\ (exists c,
           cmd (ds (snd (startDebugger Port s))) = Some c
           /\ cmd_Args c = ["dlv"; "dap"; "--listen"; port; "--log";
                            "--log-output"; "dap"]
           /\ program c = next_dlv s)
    /\ existsb tears_down acts = false
    /\ Forall (fun a =>
                 match a with
                 | Spawned args =>
                     args = ["dlv"; "dap"; "--listen"; port; "--log";
                             "--log-output"; "dap"]
                 | Dialed addr => addr = "localhost" ++ port
                 | _ => True
                 end) acts
    /\ ((exists text, fst (startDebugger Port s) = Done (Result text))
        <-> (pipe_error (next_dlv s) = None
             /\ start_error (next_dlv s) = None
             /\ existsb is_listening_line (stdout_lines (next_dlv s)) = true
             /\ accepts (next_dlv s) = true
             /\ writable (next_dlv s) = true
             /\ exists resp caps more,
                  messages (next_dlv s)
                  = Recv (dap.InitializeResponse resp caps) :: more)).
Proof.
  intros port.
  destruct s as [[cm cl] [|[pe se lines oerr acc wr msgs ke] rest] lis tr];
    unfold startDebugger, next_dlv, exec_Command, StdoutPipe, Start,
      newDAPClient, InitializeRequest, newRequest, send, ReadMessage;
    fold port; go_start.
  - anatomy_leaf.
  - destruct pe as [e|]; go_start.
    { anatomy_leaf. }
    destruct se as [e|]; go_start.
    { anatomy_leaf. }
    rewrite awaitListening_run.
    destruct (existsb is_listening_line lines) eqn:Hready; go_start.
    2:{ anatomy_leaf. }
    destruct acc; go_start.
    2:{ anatomy_leaf. }
    destruct wr; go_start.
    2:{ anatomy_leaf. }
    destruct msgs as [|[msg|err] inbound]; go_start.
    { anatomy_leaf. }
    2:{ anatomy_leaf. }
    destruct msg; go_start; anatomy_leaf.
Qed.


(** X14. Whatever its outcome, [startDebugger] leaves the subprocess handle
    set, to the command it has built, and it tears nothing down: it does
    not close the connection of an earlier start and does not kill or wait
    for an earlier process. *)
Theorem startDebugger_sets_cmd_and_tears_nothing_down
  (Port : string) (s : State) :
  (exists c, cmd (ds (snd (startDebugger Port s))) = Some c
             /\ program c = next_dlv s)
  /\ exists acts,
       trace (snd (startDebugger Port s)) = (trace s ++ acts)%list
       /\ ~ In Closed acts /\ ~ In Killed acts /\ ~ In Waited acts.
Proof.
  destruct (startDebugger_anatomy Port s)
    as (acts & Htrace & (c & Hcmd & _ & Hprog) & Hdown & _).
  split; [exists c; split; [exact Hcmd | exact Hprog]|].
  exists acts. split; [exact Htrace|].
  assert (Hnone : forall a, tears_down a = true -> ~ In a acts).
  { intros a Ha Hin.
    assert (H : existsb tears_down acts = true)
      by (apply existsb_exists; exists a; split; [exact Hin | exact Ha]).
    congruence. }
  split; [|split]; apply Hnone; reflexivity.
Qed.

(** X15. [startDebugger] succeeds exactly when the pipe and the process can
    be set up, the process prints a listening line, the dial and the write
    of the initialize request succeed, and the first message read is an
    InitializeResponse, whatever its success flag. *)
Theorem startDebugger_succeeds_exactly_when (Port : string) (s : State) :
  (exists text, fst (startDebugger Port s) = Done (Result text))
  <-> (pipe_error (next_dlv s) = None
       /\ start_error (next_dlv s) = None
       /\ existsb is_listening_line (stdout_lines (next_dlv s)) = true
       /\ accepts (next_dlv s) = true
       /\ writable (next_dlv s) = true
       /\ exists resp caps more,
            messages (next_dlv s)
            = Recv (dap.InitializeResponse resp caps) :: more).
Proof.
  destruct (startDebugger_anatomy Port s) as (acts & _ & _ & _ & _ & Hiff).
  exact Hiff.
Qed.
